(** * BeeVision: the experiment driver of the three fine-tuning notebooks

    The repository holds three near-identical notebooks (DenseNet201,
    EfficientNet-B0, ResNet-18).  Each one loads [annotations.csv], splits
    the examples 80/10/10, sweeps a hyperparameter grid through the external
    [train] routine, selects the best row, persists it, and retrains.

    This file embeds the driver logic of those notebooks: Python floats are
    IEEE binary64 values ([PrimFloat.float]), Python dicts with string keys
    are [gmap string _], the [try]/[except] blocks are an error monad, and
    the external collaborators ([train], the numpy generator, the string
    parser of [pandas.to_numeric], the image store) are section variables.
    What differs between the notebooks (file names, transform names, the
    [df[:5]] line, the retrain guard) is collected in the record
    [notebook]. *)

From Stdlib Require Import Floats ZArith Lia.
From stdpp Require Import gmap strings list pretty.

Set Warnings "-inexact-float,-clear-no-such-hyp".

(* ===================================================================== *)
(** * Part I: the embedding                                               *)
(* ===================================================================== *)

(** ** Python floats *)

(** [x != x], the test behind [math.isnan] and [pandas.isna] on floats. *)
Definition is_nan (x : float) : bool := negb (x =? x)%float.

(** [float('nan')]. *)
Definition py_nan : float := nan.

(** ** Python exceptions and the [try]/[except] monad *)

(** An instance of a subclass of [Exception], the exceptions an
    [except Exception] clause catches: its class name and message.
    ([KeyboardInterrupt] and [SystemExit] derive from [BaseException] only
    and are not values of this type.) *)
Record exn : Type := Exception { exn_class : string; exn_msg : string }.

Definition ValueError (msg : string) : exn := Exception "ValueError" msg.
Definition KeyError (key : string) : exn := Exception "KeyError" key.
Definition IndexError (msg : string) : exn := Exception "IndexError" msg.
Definition FileNotFoundError (path : string) : exn :=
  Exception "FileNotFoundError" path.
Definition AttributeError (msg : string) : exn := Exception "AttributeError" msg.

Inductive result (A : Type) : Type :=
  | Ok (a : A)
  | Raise (e : exn).
Arguments Ok {A} a.
Arguments Raise {A} e.

#[global] Instance result_ret : MRet result := λ A a, Ok a.
#[global] Instance result_bind : MBind result := λ A B f m,
  match m with
  | Ok a => f a
  | Raise e => Raise e
  end.

Definition is_raise {A} (m : result A) : bool :=
  match m with Ok _ => false | Raise _ => true end.

(** [try: body except Exception: handler]. *)
Definition try_except {A} (body : result A) (handler : exn → A) : A :=
  match body with
  | Ok a => a
  | Raise e => handler e
  end.

(** ** Python values stored in the configuration dictionaries *)

Inductive pyval : Type :=
  | PStr (s : string)
  | PInt (z : Z)
  | PFloat (f : float).

(** [d[key]] on a dict: the value, or [KeyError]. *)
Definition getitem {V} (d : gmap string V) (key : string) : result V :=
  match d !! key with
  | Some v => Ok v
  | None => Raise (KeyError key)
  end.

(** [xs[-1]] on a list. *)
Definition py_last {A} (xs : list A) : result A :=
  match last xs with
  | Some x => Ok x
  | None => Raise (IndexError "list index out of range")
  end.

(** ** What differs between the three notebooks *)

(** The two training pipelines a notebook defines: [*_triv_aug_trans] and
    [*_train_datatransform]. *)
Inductive augmentation : Type := TrivialAugment | Baseline.

#[global] Instance augmentation_eq_dec : EqDecision augmentation.
Proof. solve_decision. Defined.

Record notebook : Type := Notebook {
  (** the backbone tag the notebook passes to its plotting helpers:
      ['d201'], ['eb0'], ['res18'] *)
  nb_tag : string;
  (** [df = df[:k]] right after [pd.read_csv], when the line is not commented out *)
  nb_head : option nat;
  (** the name the grid loop records for the baseline pipeline *)
  nb_grid_baseline : string;
  (** the name the [elif] of the retrain cell compares with; [None] when the
      notebook has no "load best hyperparameters" cell *)
  nb_retrain_baseline : option string;
  (** file written by [results_df.to_csv] *)
  nb_results_csv : string;
  (** file written by [json.dump(best_params, f, indent=4)] *)
  nb_best_params_json : string;
  (** file written by [json.dump(test_results, jsonfile, indent=4)] *)
  nb_test_results_json : string
}.

(** src/unnamed/part_000 *)
Definition densenet201 : notebook := {|
  nb_tag := "d201";
  nb_head := None;
  nb_grid_baseline := "d201_transform";
  nb_retrain_baseline := Some "res18_transform";
  nb_results_csv := "hyperparameter_testing_d201.csv";
  nb_best_params_json := "best_params_d201.json";
  nb_test_results_json := "test_results_d201.json"
|}.

(** src/unnamed/part_001 *)
Definition efficientnet_b0 : notebook := {|
  nb_tag := "eb0";
  nb_head := Some 5;
  nb_grid_baseline := "eb0_transform";
  nb_retrain_baseline := None;
  nb_results_csv := "hyperparameter_testing_d201.csv";
  nb_best_params_json := "best_params_eb0.json";
  nb_test_results_json := "test_results_eb0.json"
|}.

(** src/src/Resnet18_model.ipynb *)
Definition resnet18 : notebook := {|
  nb_tag := "res18";
  nb_head := None;
  nb_grid_baseline := "res18_transform";
  nb_retrain_baseline := Some "res18_transform";
  nb_results_csv := "hyperparameter_testing_Res18.csv";
  nb_best_params_json := "best_params_res18.json";
  nb_test_results_json := "test_results_res18.json"
|}.

Definition notebooks : list notebook := [densenet201; efficientnet_b0; resnet18].

(** The artifact names of section 6 of the specification, for a tag. *)
Definition spec_results_csv (tag : string) : string :=
  "hyperparameter_testing_" +:+ tag +:+ ".csv".
Definition spec_best_params_json (tag : string) : string :=
  "best_params_" +:+ tag +:+ ".json".
Definition spec_test_results_json (tag : string) : string :=
  "test_results_" +:+ tag +:+ ".json".

(** The two names the grid loop of a notebook records in the [transform]
    field, with the pipeline each one stands for. *)
Definition grid_transforms (nb : notebook) : list (string * augmentation) :=
  [("triv_aug", TrivialAugment); (nb_grid_baseline nb, Baseline)].

(** ** The hyperparameter grid *)

Definition num_epochs : list Z := [5; 10]%Z.
Definition lrs : list float := [0.001; 0.0001; 0.01]%float.
Definition batch_size : list Z := [16; 32; 64]%Z.

(** [itertools.product(xs, ys, zs)]: the rightmost list varies fastest. *)
Definition product3 {A B C} (xs : list A) (ys : list B) (zs : list C)
    : list (A * B * C) :=
  x ← xs; y ← ys; z ← zs; [(x, y, z)].

Definition hyperparameter_combos : list (Z * Z * float) :=
  product3 batch_size num_epochs lrs.

(** One grid point: the loop variables of one iteration of the sweep. *)
Record point : Type := Point {
  pt_transform : string * augmentation;
  pt_batch_size : Z;
  pt_epoch : Z;
  pt_lr : float
}.

(** The iteration space of the two nested [for] loops: transforms outside,
    [hyperparameter_combos] inside. *)
Definition enumerate_grid {T} (transforms : list T)
    (batch_choices epoch_choices : list Z) (lr_choices : list float)
    : list (T * (Z * Z * float)) :=
  t ← transforms; c ← product3 batch_choices epoch_choices lr_choices; [(t, c)].

Definition to_point (tc : (string * augmentation) * (Z * Z * float)) : point :=
  let '(t, (b, e, l)) := tc in Point t b e l.

Definition grid (nb : notebook) : list point :=
  to_point <$> enumerate_grid (grid_transforms nb) batch_size num_epochs lrs.

(** ** Run results and the sweep *)

(** What the external helpers may hand back for a metric, and so what a
    dict of [results] may hold for it: a zero-dimensional tensor or a
    Python float. *)
Inductive metric_value : Type :=
  | TensorScalar (f : float)
  | PyFloat (f : float).

(** The binary64 value of the object. *)
Definition float_of (x : metric_value) : float :=
  match x with
  | TensorScalar f => f
  | PyFloat f => f
  end.

(** One element of [results]; the fields are the keys of the dict literal.
    The loss and the Hamming accuracy are the numbers [to_csv] writes and
    [idxmax] compares; the zero-one accuracy is the object the dict holds,
    on which the cell that saves the table calls [.item()]. *)
Record run_result : Type := RunResult {
  transform : string;
  rr_batch_size : Z;
  epochs : Z;
  lr : float;
  final_test_loss : float;
  final_test_ham_acc : float;
  final_test_zero_one_acc : metric_value
}.

(** The part of the dict returned by [train] that the notebooks read: one
    entry per epoch in each list. *)
Record train_results : Type := TrainResults {
  test_loss : list float;
  test_ham_acc : list float;
  test_zero_one_acc : list metric_value
}.

Definition success_row (p : point) (loss ham : float) (zo : metric_value)
    : run_result :=
  RunResult (pt_transform p).1 (pt_batch_size p) (pt_epoch p) (pt_lr p) loss ham zo.

(** The row appended by the [except Exception] branch: three times
    [float('nan')]. *)
Definition nan_row (p : point) : run_result :=
  RunResult (pt_transform p).1 (pt_batch_size p) (pt_epoch p) (pt_lr p)
            py_nan py_nan (PyFloat py_nan).

Definition row_point (r : run_result) : string * Z * Z * float :=
  (transform r, rr_batch_size r, epochs r, lr r).

Definition point_key (p : point) : string * Z * Z * float :=
  ((pt_transform p).1, pt_batch_size p, pt_epoch p, pt_lr p).

(** The [DataLoader] built at the top of the loop body. *)
Record data_loader : Type := DataLoader {
  dl_pipeline : augmentation;
  dl_batch_size : Z;
  dl_shuffle : bool
}.

Definition trial_loader (p : point) : data_loader :=
  DataLoader (pt_transform p).2 (pt_batch_size p) true.

(** The body of the [try] block once [train] has answered: the last entry
    of each per-epoch list goes into the row. *)
Definition try_body (p : point) (answer : result train_results)
    : result run_result :=
  tr ← answer;
  loss ← py_last (test_loss tr);
  ham ← py_last (test_ham_acc tr);
  zo ← py_last (test_zero_one_acc tr);
  mret (success_row p loss ham zo).

(** The [try]/[except Exception] statement: exactly one row is appended. *)
Definition record_trial (p : point) (answer : result train_results) : run_result :=
  try_except (try_body p answer) (λ _, nan_row p).

Section Sweep.
(** Everything the external training routine reads and mutates: the
    weights of the one model object shared by all trials, the optimizer
    buffers, the torch random generator. *)
Context {World : Type}.
(** [train(model=..., train_dataloader=..., optimizer=Adam(lr), epochs=...)]:
    it returns its per-epoch results or raises, and leaves a new world. *)
Variable train : World → point → World * result train_results.

(** One iteration of the inner loop. *)
Definition run_trial (w : World) (p : point) : World * run_result :=
  let '(w', answer) := train w p in
  (w', record_trial p answer).

(** The loop over the points, appending to [results]; it also carries the
    last [train_dataloader] bound by the loop. *)
Fixpoint sweep_loop (ps : list point) (w : World) (results : list run_result)
    (loader : option data_loader)
    : World * list run_result * option data_loader :=
  match ps with
  | [] => (w, results, loader)
  | p :: ps' =>
      let '(w', r) := run_trial w p in
      sweep_loop ps' w' (results ++ [r]) (Some (trial_loader p))
  end.

(** The hyperparameter-testing cell run over a list of points, from
    [results = []]. *)
Definition sweep_over (ps : list point) (w : World) : World * list run_result :=
  (sweep_loop ps w [] None).1.

Definition sweep (nb : notebook) (w : World) : World * list run_result :=
  sweep_over (grid nb) w.

(** The answers [train] gives, trial by trial, during a sweep. *)
Fixpoint trial_answers (ps : list point) (w : World) : list (result train_results) :=
  match ps with
  | [] => []
  | p :: ps' => let '(w', a) := train w p in a :: trial_answers ps' w'
  end.
End Sweep.

(** Two training routines to run the sweep on.  The first one always
    raises.  The second one trains the model it is handed further, as the
    notebooks' shared model object is: its world is the number of epochs the
    model has been trained for, and the accuracy it reports depends on it. *)
Definition failing_train (w : unit) (p : point) : unit * result train_results :=
  (w, Raise (Exception "RuntimeError" "CUDA out of memory")).

Definition warm_start_train (trained : nat) (p : point) : nat * result train_results :=
  let total := trained + Z.to_nat (pt_epoch p) in
  let ham := if bool_decide (total ≤ 5) then 0.5%float else 0.9%float in
  (total, Ok (TrainResults [0.4%float] [ham] [TensorScalar 0.1%float])).

(** The same routine behind a model factory: every trial starts from a
    freshly initialised model. *)
Definition fresh_model_train (trained : nat) (p : point) : nat * result train_results :=
  (trained, (warm_start_train 0 p).2).

(** Two points of every notebook's grid. *)
Definition point_b16 : point := Point ("triv_aug", TrivialAugment) 16 5 0.001%float.
Definition point_b32 : point := Point ("triv_aug", TrivialAugment) 32 5 0.001%float.

(** A training routine whose answer for a point does not depend on what the
    trials before it left behind. *)
Definition stateless {World} (train : World → point → World * result train_results)
    : Prop :=
  ∀ w w' p, (train w p).2 = (train w' p).2.

(** ** Selecting the best row *)

(** [Series.idxmax()] with its default [skipna=True] on a [RangeIndex]: the
    position of the first occurrence of the largest value, NaN entries left
    out; [None] when there is no entry that is not NaN.  The accumulator is
    the best (position, value) seen so far. *)
Fixpoint idxmax_from (i : nat) (vs : list float) (best : option (nat * float))
    : option (nat * float) :=
  match vs with
  | [] => best
  | v :: vs' =>
      let best' :=
        if is_nan v then best
        else match best with
             | None => Some (i, v)
             | Some (_, b) => if (b <? v)%float then Some (i, v) else best
             end in
      idxmax_from (S i) vs' best'
  end.

Definition idxmax (vs : list float) : option nat :=
  fst <$> idxmax_from 0 vs None.

(** [results_df.loc[results_df['final_test_ham_acc'].idxmax()]].  A frame
    built from no row has no column to look up. *)
Definition select_best (results : list run_result) : result run_result :=
  match results with
  | [] => Raise (KeyError "final_test_ham_acc")
  | _ =>
      match idxmax (final_test_ham_acc <$> results) with
      | None => Raise (ValueError "Encountered all NA values")
      | Some i =>
          match results !! i with
          | Some r => Ok r
          | None => Raise (KeyError (pretty i))
          end
      end
  end.

(** The dict literal [best_params = {...}], on a row of the saved table:
    every number of the row is a numpy scalar there, and [.item()] gives
    its value. *)
Definition best_params (best_row : run_result) : gmap string pyval :=
  {[ "transform" := PStr (transform best_row);
     "batch_size" := PInt (rr_batch_size best_row);
     "epochs" := PInt (epochs best_row);
     "lr" := PFloat (lr best_row);
     "final_test_loss" := PFloat (final_test_loss best_row);
     "final_test_ham_acc" := PFloat (final_test_ham_acc best_row);
     "final_test_zero_one_acc" := PFloat (float_of (final_test_zero_one_acc best_row)) ]}.

(** ** Persisted artifacts *)

(** The tokens [json.dump] writes for scalar values.  A finite float is
    written with [float.__repr__] and read back with [float], which gives
    the same binary64 value, so [JReal] carries the value itself; the three
    special floats are written as the constants [NaN], [Infinity] and
    [-Infinity]. *)
Inductive json_const : Type := JNaN | JInfinity | JNegInfinity.

Inductive json : Type :=
  | JString (s : string)
  | JInt (z : Z)
  | JReal (f : float)
  | JConst (c : json_const).

(** [json.encoder]: [floatstr] tests [o != o], [o == inf], [o == -inf]. *)
Definition json_of_float (f : float) : json :=
  if is_nan f then JConst JNaN
  else if (f =? infinity)%float then JConst JInfinity
  else if (f =? neg_infinity)%float then JConst JNegInfinity
  else JReal f.

Definition json_of_py (v : pyval) : json :=
  match v with
  | PStr s => JString s
  | PInt z => JInt z
  | PFloat f => json_of_float f
  end.

(** [json.decoder]: strings, integers, reals and the three constants. *)
Definition py_of_json (j : json) : pyval :=
  match j with
  | JString s => PStr s
  | JInt z => PInt z
  | JReal f => PFloat f
  | JConst JNaN => PFloat nan
  | JConst JInfinity => PFloat infinity
  | JConst JNegInfinity => PFloat neg_infinity
  end.

(** The column names of [results_df], in the order of the dict literal. *)
Definition results_columns : list string :=
  ["transform"; "batch_size"; "epochs"; "lr";
   "final_test_loss"; "final_test_ham_acc"; "final_test_zero_one_acc"].

(** What a file of the working directory holds: a flat JSON object or the
    table written by [to_csv(index=False)]. *)
Inductive file : Type :=
  | JsonObject (members : gmap string json)
  | CsvTable (header : list string) (rows : list run_result).

(** [x.item()] as the lambda of the cell that saves the table calls it on
    a cell of the column: a tensor has the method, a float has not.  (The
    cells are handed over as Python objects, a float also where the whole
    column is one of floats.) *)
Definition item (x : metric_value) : result float :=
  match x with
  | TensorScalar f => Ok f
  | PyFloat _ => Raise (AttributeError "'float' object has no attribute 'item'")
  end.

(** A row with another object in its zero-one cell. *)
Definition set_zero_one (r : run_result) (x : metric_value) : run_result :=
  RunResult (transform r) (rr_batch_size r) (epochs r) (lr r)
            (final_test_loss r) (final_test_ham_acc r) x.

(** What the conversion of the column does to one row. *)
Definition item_row (r : run_result) : result run_result :=
  f ← item (final_test_zero_one_acc r);
  mret (set_zero_one r (PyFloat f)).

(** [results_df['final_test_zero_one_acc'].apply(lambda x: x.item())],
    assigned back to the column: the cells become floats.  The first cell
    that is a float already raises, the [float('nan')] of a failed trial
    for one; a frame built from no row has no such column. *)
Definition zero_one_items (results : list run_result) : result (list run_result) :=
  match results with
  | [] => Raise (KeyError "final_test_zero_one_acc")
  | _ => mapM item_row results
  end.

(** [results_df.to_csv(file_path, index=False)]. *)
Definition persist_results (nb : notebook) (results : list run_result)
    (fs : gmap string file) : gmap string file :=
  <[nb_results_csv nb := CsvTable results_columns results]> fs.

(** The cell that saves the table: the conversion of the column, then
    [to_csv].  It hands on the converted frame; when the conversion raises
    nothing is written. *)
Definition results_cell (nb : notebook) (results : list run_result)
    (fs : gmap string file) : result (list run_result) * gmap string file :=
  match zero_one_items results with
  | Ok results_df => (Ok results_df, persist_results nb results_df fs)
  | Raise e => (Raise e, fs)
  end.

(** [with open(filepath, 'w') as f: json.dump(config, f, indent=4)]. *)
Definition persist_config (filepath : string) (config : gmap string pyval)
    (fs : gmap string file) : gmap string file :=
  <[filepath := JsonObject (json_of_py <$> config)]> fs.

(** [with open(filepath, 'r') as f: json.load(f)]. *)
Definition load_config (filepath : string) (fs : gmap string file)
    : result (gmap string pyval) :=
  match fs !! filepath with
  | Some (JsonObject members) => Ok (py_of_json <$> members)
  | Some (CsvTable _ _) => Raise (Exception "JSONDecodeError" filepath)
  | None => Raise (FileNotFoundError filepath)
  end.

(** The two cells of a notebook around [best_params_<tag>.json]: both use
    the same file name literal. *)
Definition save_best_params (nb : notebook) (best_row : run_result)
    (fs : gmap string file) : gmap string file :=
  persist_config (nb_best_params_json nb) (best_params best_row) fs.

Definition load_best_params (nb : notebook) (fs : gmap string file)
    : result (gmap string pyval) :=
  load_config (nb_best_params_json nb) fs.

(** The dict literal [test_results = {...}] of the final evaluation cell. *)
Definition test_results (loss ham zo : float) : gmap string pyval :=
  {[ "Test Loss" := PFloat loss;
     "Test Hamming Accuracy" := PFloat ham;
     "Test Zero-One Accuracy" := PFloat zo ]}.

(** ** Rebuilding the training loader for the retrain *)

(** [v == s] for a string literal [s]. *)
Definition py_eq_str (v : pyval) (s : string) : bool :=
  match v with
  | PStr s' => bool_decide (s' = s)
  | _ => false
  end.

Section Retrain.
(** [float.__repr__], used when an f-string formats a float. *)
Variable float_repr : float → string.

(** [f"{v}"]. *)
Definition format_value (v : pyval) : string :=
  match v with
  | PStr s => s
  | PInt z => pretty z
  | PFloat f => float_repr f
  end.

(** The [if]/[elif]/[else] chain of the "load best hyperparameters" cell,
    with the name its [elif] compares against. *)
Definition choose_pipeline (baseline_name : string) (best_transform : pyval)
    : result augmentation :=
  if py_eq_str best_transform "triv_aug" then Ok TrivialAugment
  else if py_eq_str best_transform baseline_name then Ok Baseline
  else Raise (ValueError ("Unknown transform: " +:+ format_value best_transform)).

(** [DataLoader(train_data, batch_size=b, shuffle=True)] on a value read
    from the configuration: the constructor refuses a batch size that is
    not a positive integer (the message is shortened to its constant
    part).  The dataset is the training part of the split, which is never
    empty. *)
Definition new_loader (pipeline : augmentation) (b : pyval) : result data_loader :=
  match b with
  | PInt z =>
      if bool_decide (0 < z)%Z then Ok (DataLoader pipeline z true)
      else Raise (ValueError "batch_size should be a positive integer value")
  | _ => Raise (ValueError "batch_size should be a positive integer value")
  end.

(** The [train_dataloader] the retrain cell passes to [train].  A notebook
    with the "load best hyperparameters" cell rebuilds it from the
    configuration; a notebook without that cell still has the variable
    bound by the last iteration of the grid loop. *)
Definition retrain_loader (nb : notebook) (config : gmap string pyval)
    (loop_loader : option data_loader) : result data_loader :=
  match nb_retrain_baseline nb with
  | Some baseline_name =>
      best_transform ← getitem config "transform";
      pipeline ← choose_pipeline baseline_name best_transform;
      b ← getitem config "batch_size";
      new_loader pipeline b
  | None =>
      match loop_loader with
      | Some loader => Ok loader
      | None => Raise (Exception "NameError" "name 'train_dataloader' is not defined")
      end
  end.
End Retrain.

Section Notebook.
Context {World : Type}.
Variable train : World → point → World * result train_results.
Variable float_repr : float → string.

(** The cells of a notebook from the hyperparameter sweep to the loader the
    retrain cell trains on: sweep, convert and save the table, pick the
    best row, save it, read it back where the notebook has the cell for it,
    rebuild the loader.  A cell that raises stops the run. *)
Definition tune_and_rebuild (nb : notebook) (w : World) (fs : gmap string file)
    : result (run_result * data_loader) :=
  let '(_, results, loop_loader) := sweep_loop train (grid nb) w [] None in
  let '(saved, fs1) := results_cell nb results fs in
  results_df ← saved;
  best_row ← select_best results_df;
  let fs2 := save_best_params nb best_row fs1 in
  config ← match nb_retrain_baseline nb with
           | Some _ => load_best_params nb fs2
           | None => Ok (best_params best_row)
           end;
  loader ← retrain_loader float_repr nb config loop_loader;
  mret (best_row, loader).
End Notebook.

(** A training routine that reports the better Hamming accuracy on the
    trials run with one of the two pipelines. *)
Definition pipeline_train (favoured : augmentation) (w : unit) (p : point)
    : unit * result train_results :=
  let ham := if bool_decide ((pt_transform p).2 = favoured)
             then 0.9%float else 0.5%float in
  (w, Ok (TrainResults [0.4%float] [ham] [TensorScalar 0.1%float])).

(** ** Loading the annotations *)

(** A cell of the data frame returned by [pd.read_csv]: a float (NaN for a
    blank field) or the text of the field. *)
Inductive cell : Type :=
  | CNum (f : float)
  | CStr (s : string).

Definition isna (c : cell) : bool :=
  match c with
  | CNum f => is_nan f
  | CStr _ => false
  end.

Definition is_numeric (c : cell) : bool :=
  match c with
  | CNum f => negb (is_nan f)
  | CStr _ => false
  end.

(** One example: the [filename] cell and the label cells [row.iloc[1:16]]. *)
Record example : Type := Example { ex_filename : cell; ex_labels : list cell }.

Section Annotations.
(** The number parser [pd.to_numeric] applies to a text field; [None]
    when the text is not a number. *)
Variable str_to_float : string → option float.

(** [pd.to_numeric(_, errors='coerce')] on one cell. *)
Definition to_numeric (c : cell) : cell :=
  match c with
  | CNum f => CNum f
  | CStr s =>
      match str_to_float s with
      | Some f => CNum f
      | None => CNum py_nan
      end
  end.

(** [for col in df.columns[1:16]: df[col] = pd.to_numeric(df[col], errors='coerce')]
    seen row by row. *)
Definition coerce_labels (r : list cell) : list cell :=
  take 1 r ++ (to_numeric <$> take 15 (drop 1 r)) ++ drop 16 r.

(** The rows [df.dropna(subset=df.columns[:16])] keeps. *)
Definition complete (r : list cell) : bool :=
  forallb (λ c, negb (isna c)) (take 16 r).

Definition dropna (df : list (list cell)) : list (list cell) :=
  List.filter complete df.

(** [df = df[:k]] where the notebook has the line, nothing otherwise. *)
Definition head {Row} (nb : notebook) (df : list Row) : list Row :=
  match nb_head nb with
  | Some k => take k df
  | None => df
  end.

(** The data frame after the cleaning lines of the loading cell. *)
Definition clean (nb : notebook) (df : list (list cell)) : list (list cell) :=
  dropna (coerce_labels <$> head nb df).

Definition to_example (r : list cell) : example :=
  Example (default (CNum py_nan) (r !! 0)) (take 15 (drop 1 r)).

(** [labels] and [image_names] of the loading cell, kept side by side. *)
Definition load_examples (nb : notebook) (df : list (list cell)) : list example :=
  to_example <$> clean nb df.

(** The same cleaning lines on the frame with its index.  [pd.read_csv]
    numbers the rows from 0; [df[:k]], the assignments to the label columns
    and [dropna] keep these labels, and [reset_index(drop=True)] discards
    them at the end. *)
Definition with_index (df : list (list cell)) : list (nat * list cell) :=
  imap pair df.

Definition clean_indexed (nb : notebook) (df : list (list cell))
    : list (nat * list cell) :=
  List.filter (λ ir, complete ir.2)
              (prod_map id coerce_labels <$> head nb (with_index df)).

(** The index of the frame just before [reset_index]: the positions in the
    file of the records that are loaded. *)
Definition kept_index (nb : notebook) (df : list (list cell)) : list nat :=
  (clean_indexed nb df).*1.
End Annotations.

(** A parser for the two flag texts, to run the loading cell on, and three
    raw rows: one with every field present, one whose [filename] field is
    blank (its fifteen flags are fine), one with an unreadable flag. *)
Definition flag_parser (s : string) : option float :=
  if bool_decide (s = "0") then Some 0%float
  else if bool_decide (s = "1") then Some 1%float
  else None.

Definition good_row : list cell :=
  CStr "frame_001.jpg" :: replicate 15 (CStr "1").

Definition blank_filename_row : list cell :=
  CNum py_nan :: replicate 15 (CNum 1%float).

Definition bad_flag_row : list cell :=
  CStr "frame_003.jpg" :: CStr "yes" :: replicate 14 (CNum 0%float).

(** ** Splitting *)

(** The [random_state] argument of [train_test_split]. *)
Inductive random_state_arg : Type :=
  | RSNone
  | RSInt (seed : Z).

Record dataset_split (A B : Type) : Type := DatasetSplit {
  X_train : list A; y_train : list B;
  X_val : list A; y_val : list B;
  X_test : list A; y_test : list B
}.
Arguments DatasetSplit {A B}.
Arguments X_train {A B}. Arguments y_train {A B}.
Arguments X_val {A B}. Arguments y_val {A B}.
Arguments X_test {A B}. Arguments y_test {A B}.

(** [ceil(n / d)], the value of [ceil(test_size * n_samples)] for
    [test_size = 1/d].  The product is a binary64 one; for [d = 10] and
    [d = 9] it is within half a unit in the last place of the exact
    quotient, rounds to the integer when [d] divides [n], and is otherwise
    at least [1/d] away from an integer, so its ceiling is the ceiling of
    the exact quotient. *)
Definition ceil_div (n d : nat) : nat := (n + (d - 1)) / d.

(** [_validate_shuffle_split] for a fractional [test_size = 1/d] and
    [train_size=None]: the sizes [(n_train, n_test)], or [ValueError] when
    the training part would be empty (the message is shortened to its
    constant part). *)
Definition validate_shuffle_split (n_samples d : nat) : result (nat * nat) :=
  let n_test := ceil_div n_samples d in
  let n_train := n_samples - n_test in
  if bool_decide (n_train = 0) then
    Raise (ValueError "the resulting train set will be empty")
  else Ok (n_train, n_test).

(** [[X[i] for i in indices]]. *)
Definition safe_indexing {A} (X : list A) (indices : list nat) : result (list A) :=
  match mapM (λ i, X !! i) indices with
  | Some l => Ok l
  | None => Raise (IndexError "list index out of range")
  end.

Section Split.
(** The state of a [numpy.random.RandomState]. *)
Context {RandomState : Type}.
(** [np.random.RandomState(seed)]. *)
Variable seeded : Z → RandomState.
(** [rng.permutation(n)]: the permutation drawn and the state left. *)
Variable permutation : RandomState → nat → list nat * RandomState.

(** [check_random_state]: the global generator for [None], a fresh seeded
    one for an int.  The second component tells whether the draw has to be
    written back to the global generator. *)
Definition check_random_state (arg : random_state_arg) (global : RandomState)
    : RandomState * bool :=
  match arg with
  | RSNone => (global, true)
  | RSInt seed => (seeded seed, false)
  end.

(** [train_test_split(X, y, test_size=1/d, random_state=arg)] with the
    default [shuffle=True]: the first [n_test] entries of the permutation
    index the test part, the next [n_train] the training part.  It
    returns [(X_train, X_test, y_train, y_test)] and the global
    generator. *)
Definition train_test_split {A B} (global : RandomState)
    (X : list A) (y : list B) (d : nat) (arg : random_state_arg)
    : result (list A * list A * list B * list B) * RandomState :=
  if bool_decide (length X = length y) then
    match validate_shuffle_split (length X) d with
    | Raise e => (Raise e, global)
    | Ok (n_train, n_test) =>
        let '(rng, shared) := check_random_state arg global in
        let '(perm, rng') := permutation rng (length X) in
        let ind_test := take n_test perm in
        let ind_train := take n_train (drop n_test perm) in
        (Xtr ← safe_indexing X ind_train;
         Xte ← safe_indexing X ind_test;
         ytr ← safe_indexing y ind_train;
         yte ← safe_indexing y ind_test;
         mret (Xtr, Xte, ytr, yte),
         if shared then rng' else global)
    end
  else
    (Raise (ValueError "Found input variables with inconsistent numbers of samples"),
     global).

(** The two calls of the loading cell: 1/10 for the test part, then 1/9 of
    the rest for the validation part, both with [random_state=seed]. *)
Definition split {A B} (global : RandomState) (images : list A) (labels : list B)
    (seed : Z) : result (dataset_split A B) * RandomState :=
  let '(first, global1) := train_test_split global images labels 10 (RSInt seed) in
  match first with
  | Raise e => (Raise e, global1)
  | Ok (X_train_val, Xte, y_train_val, yte) =>
      let '(second, global2) :=
        train_test_split global1 X_train_val y_train_val 9 (RSInt seed) in
      ('(Xtr, Xva, ytr, yva) ← second;
       mret (DatasetSplit Xtr ytr Xva yva Xte yte),
       global2)
  end.
End Split.

(** A generator to run the split on: it draws the reversed identity. *)
Definition reversing_permutation (rng : unit) (n : nat) : list nat * unit :=
  (reverse (seq 0 n), rng).

Section Loading.
Context {RandomState Img : Type}.
Variable seeded : Z → RandomState.
Variable permutation : RandomState → nat → list nat * RandomState.
Variable str_to_float : string → option float.
(** [Image.open(os.path.join(img_path, img_name))], converted to RGB when
    its mode is another one: the image, or the exception raised for a
    name that is no path, a file that is missing or one that cannot be
    read. *)
Variable open_image : cell → result Img.

(** The loop over [image_names]: it stops at the first image that cannot
    be opened. *)
Definition load_images (image_names : list cell) : result (list Img) :=
  mapM open_image image_names.

(** The loading cell of a notebook, from the data frame read from
    [annotations.csv] to the three parts: the cleaning, the loop that opens
    the images, the two calls of [train_test_split]. *)
Definition load_and_split (nb : notebook) (global : RandomState)
    (df : list (list cell)) (seed : Z)
    : result (dataset_split Img (list cell)) * RandomState :=
  let examples := load_examples str_to_float nb df in
  match load_images (ex_filename <$> examples) with
  | Raise e => (Raise e, global)
  | Ok images => split seeded permutation global images (ex_labels <$> examples) seed
  end.
End Loading.

(** An image store to run the loading cell on: every file is there but
    [missing.jpg], and an image is identified with its name. *)
Definition image_store (c : cell) : result cell :=
  match c with
  | CStr name =>
      if bool_decide (name = "missing.jpg") then Raise (FileNotFoundError name)
      else Ok c
  | CNum _ =>
      Raise (Exception "TypeError"
               "join() argument must be str, bytes, or os.PathLike object, not 'float'")
  end.

Definition missing_image_row : list cell :=
  CStr "missing.jpg" :: replicate 15 (CStr "0").

(** ** The final evaluation cell *)

(** [x.item() if isinstance(x, torch.Tensor) else x], on what [test_step]
    handed back. *)
Definition item_if_tensor (x : metric_value) : float :=
  match x with
  | TensorScalar f => f
  | PyFloat f => f
  end.

(** The cell that unpacks [test_step], builds [test_results] and dumps it to
    [test_results_<tag>.json]. *)
Definition save_test_results (nb : notebook)
    (out : metric_value * metric_value * metric_value)
    (fs : gmap string file) : gmap string file :=
  let '(loss, ham, zo) := out in
  persist_config (nb_test_results_json nb)
    (test_results (item_if_tensor loss) (item_if_tensor ham) (item_if_tensor zo)) fs.

(** ** Datasets, loaders and the evaluation pass *)

(** [l[idx]] on a Python list: a negative index counts from the end. *)
Definition py_index {A} (l : list A) (idx : Z) : result A :=
  let n := Z.of_nat (length l) in
  let i := if bool_decide (idx < 0)%Z then (idx + n)%Z else idx in
  if bool_decide (0 ≤ i < n)%Z then
    match l !! Z.to_nat i with
    | Some x => Ok x
    | None => Raise (IndexError "list index out of range")
    end
  else Raise (IndexError "list index out of range").

(** The dict [{'Image': image, 'Label': label}] returned by [__getitem__]. *)
Record sample (Img Tens : Type) : Type := Sample { Image : Img; Label : Tens }.
Arguments Sample {Img Tens}.
Arguments Image {Img Tens}.
Arguments Label {Img Tens}.

(** [class CustomImageDataset(Dataset)]: the two lists and the optional
    transform. *)
Record custom_image_dataset (Img Lab : Type) : Type := CustomImageDataset {
  ds_images : list Img;
  ds_labels : list Lab;
  ds_transform : option (Img → Img)
}.
Arguments CustomImageDataset {Img Lab}.
Arguments ds_images {Img Lab}.
Arguments ds_labels {Img Lab}.
Arguments ds_transform {Img Lab}.

(** [__len__]. *)
Definition ds_len {Img Lab} (ds : custom_image_dataset Img Lab) : nat :=
  length (ds_images ds).

(** [if self.transform: image = self.transform(image)]. *)
Definition apply_transform {Img} (t : option (Img → Img)) (image : Img) : Img :=
  match t with
  | Some f => f image
  | None => image
  end.

Section Dataset.
Context {Img Lab Tens : Type}.
(** [torch.tensor(label, dtype=torch.float32)]. *)
Variable as_tensor : Lab → Tens.

(** [__getitem__]. *)
Definition ds_getitem (ds : custom_image_dataset Img Lab) (idx : Z)
    : result (sample Img Tens) :=
  image ← py_index (ds_images ds) idx;
  label ← py_index (ds_labels ds) idx;
  mret (Sample (apply_transform (ds_transform ds) image) (as_tensor label)).

(** The sample built from an image and its label, and the samples of a
    dataset position by position. *)
Definition make_sample (t : option (Img → Img)) (image : Img) (label : Lab)
    : sample Img Tens :=
  Sample (apply_transform t image) (as_tensor label).

Definition all_samples (ds : custom_image_dataset Img Lab) : list (sample Img Tens) :=
  zip_with (make_sample (ds_transform ds)) (ds_images ds) (ds_labels ds).

(** [BatchSampler.__iter__] with [drop_last=False]: indices are collected
    into [batch]; a full batch is yielded, and at the end what is left. *)
Fixpoint batch_sampler (batch_size : nat) (sampler : list nat) (batch : list nat)
    : list (list nat) :=
  match sampler with
  | [] => match batch with [] => [] | _ => [batch] end
  | idx :: rest =>
      let batch' := batch ++ [idx] in
      if bool_decide (length batch' = batch_size)
      then batch' :: batch_sampler batch_size rest []
      else batch_sampler batch_size rest batch'
  end.

(** Iterating [DataLoader(ds, batch_size=b, shuffle=False)]: the batches of
    samples, in order.  The constructor refuses a batch size that is not
    positive; a batch is the list of its samples. *)
Definition iterate_loader (ds : custom_image_dataset Img Lab) (b : Z)
    : result (list (list (sample Img Tens))) :=
  if bool_decide (b ≤ 0)%Z then
    Raise (ValueError "batch_size should be a positive integer value")
  else
    mapM (mapM (λ i : nat, ds_getitem ds (Z.of_nat i)))
         (batch_sampler (Z.to_nat b) (seq 0 (ds_len ds)) []).
End Dataset.

(** [(y_prob >= 0.5).astype(int)] on one entry. *)
Definition threshold (p : float) : Z := if (0.5 <=? p)%float then 1%Z else 0%Z.

Section Evaluation.
Context {Img Lab Metrics : Type}.
(** [torch.tensor(label, dtype=torch.float32)]: the label row. *)
Variable as_tensor : Lab → list float.
(** [model(inputs)] in evaluation mode: one row of logits per input. *)
Variable model : list Img → list (list float).
(** [torch.sigmoid] on one entry. *)
Variable sigmoid : float → float.
(** The calls into the [metrics] module, on [y_true], [y_pred], [y_prob]. *)
Variable compute_metrics :
  list (list float) → list (list Z) → list (list float) → Metrics.

(** The loop of [how_did_i_do]: [y_true.extend(labels)] and
    [y_prob.extend(probabilities)] batch after batch. *)
Fixpoint collect (batches : list (list (sample Img (list float))))
    (y_true y_prob : list (list float)) : list (list float) * list (list float) :=
  match batches with
  | [] => (y_true, y_prob)
  | batch :: rest =>
      let outputs := model (Image <$> batch) in
      collect rest (y_true ++ (Label <$> batch))
                   (y_prob ++ ((λ row : list float, sigmoid <$> row) <$> outputs))
  end.

(** [how_did_i_do(model, test_dataloader, device)]: the metrics, [y_true]
    and [y_pred]. *)
Definition how_did_i_do (ds : custom_image_dataset Img Lab) (b : Z)
    : result (Metrics * list (list float) * list (list Z)) :=
  batches ← iterate_loader as_tensor ds b;
  let '(y_true, y_prob) := collect batches [] [] in
  let y_pred := (λ row : list float, threshold <$> row) <$> y_prob in
  mret (compute_metrics y_true y_pred y_prob, y_true, y_pred).
End Evaluation.

(** ** The properties the specification states, as predicates *)

(** Section 4.1, [select_best]: a sequence of run results with at least one
    defined Hamming accuracy. *)
Definition has_defined (results : list run_result) : Prop :=
  ∃ r, r ∈ results ∧ is_nan (final_test_ham_acc r) = false.

(** What the accumulator of [idxmax_from] knows about the values already
    scanned: it holds the first position of the largest value that is not
    NaN. *)
Definition best_so_far (seen : list float) (best : option (nat * float)) : Prop :=
  match best with
  | None => ∀ j w, seen !! j = Some w → is_nan w = true
  | Some (i, b) =>
      seen !! i = Some b ∧ is_nan b = false ∧
      ∀ j w, seen !! j = Some w → is_nan w = false →
             (w <=? b)%float = true ∧ (j < i → (w <? b)%float = true)
  end.

(** Section 4.1, [enumerate_grid]: two enumeration orders of one grid give,
    for each grid point, the same run result. *)
Definition order_independent {World}
    (train : World → point → World * result train_results)
    (w : World) (ps1 ps2 : list point) : Prop :=
  ∀ i j p r1 r2,
    ps1 !! i = Some p → ps2 !! j = Some p →
    (sweep_over train ps1 w).2 !! i = Some r1 →
    (sweep_over train ps2 w).2 !! j = Some r2 →
    r1 = r2.

(** Section 4.1, [retrain_and_evaluate]: rebuilding the loader fails with
    "Unknown transform" exactly for the names the notebook's own grid does
    not record. *)
Definition guard_matches_grid (float_repr : float → string) (nb : notebook) : Prop :=
  ∀ (config : gmap string pyval) (name : string) (loop_loader : option data_loader),
    config !! "transform" = Some (PStr name) →
    retrain_loader float_repr nb config loop_loader
      = Raise (ValueError ("Unknown transform: " +:+ name))
    ↔ name ∉ (grid_transforms nb).*1.

(** Section 3, Label Vector: a raw label value parses as numeric when it is
    a number as read, or a text the number parser reads as a number; NaN
    is no number. *)
Definition parses_as_numeric (str_to_float : string → option float) (c : cell)
    : Prop :=
  ∃ f, is_nan f = false ∧ (c = CNum f ∨ ∃ s, c = CStr s ∧ str_to_float s = Some f).

Definition fails_to_parse (str_to_float : string → option float) (c : cell) : Prop :=
  ¬ parses_as_numeric str_to_float c.

(** One of the fifteen raw label values of a record fails to parse. *)
Definition has_unparsed_label (str_to_float : string → option float)
    (r : list cell) : Prop :=
  ∃ c, c ∈ take 15 (drop 1 r) ∧ fails_to_parse str_to_float c.

(** The [filename] field of a record is blank. *)
Definition missing_filename (r : list cell) : Prop :=
  ∃ c, r !! 0 = Some c ∧ isna c = true.

(** The record is below the rows [df[:k]] keeps. *)
Definition beyond_head (nb : notebook) (i : nat) : Prop :=
  ∃ k, nb_head nb = Some k ∧ k ≤ i.

(** Section 7, malformed annotation rows: the record at position i of the
    annotations file is excluded from the dataset when no example of the
    dataset comes from it. *)
Definition excluded (str_to_float : string → option float) (nb : notebook)
    (df : list (list cell)) (i : nat) : Prop :=
  i ∉ kept_index str_to_float nb df.

(** Section 8: the three parts hold every example exactly once, side by
    side with its labels. *)
Definition partitions {A B} (images : list A) (labels : list B)
    (s : dataset_split A B) : Prop :=
  zip (X_train s) (y_train s) ++ zip (X_val s) (y_val s) ++ zip (X_test s) (y_test s)
    ≡ₚ zip images labels
  ∧ X_train s ++ X_val s ++ X_test s ≡ₚ images
  ∧ length (y_train s) = length (X_train s)
  ∧ length (y_val s) = length (X_val s)
  ∧ length (y_test s) = length (X_test s).

(** Section 8: a tenth of [n], up to rounding. *)
Definition about_a_tenth (n k : nat) : Prop := n < 10 * k + 10 ∧ 10 * k < n + 10.

(* ===================================================================== *)
(** * Part II: the properties                                              *)
(* ===================================================================== *)

(** ** The error monad *)

Lemma result_bind_Ok {A B} (f : A → result B) (a : A) : Ok a ≫= f = f a.
Proof. done. Qed.

Lemma result_bind_Raise {A B} (f : A → result B) (e : exn) : Raise e ≫= f = Raise e.
Proof. done. Qed.

(** A loop that calls [f] on every element returns when every call
    does. *)
Lemma result_mapM_Ok {A B} (f : A → result B) (l : list A) (k : list B) :
  mapM f l = Ok k ↔ Forall2 (λ x y, f x = Ok y) l k.
Proof.
  revert k. induction l as [|x l IH]; intros k.
  - split; [intros [= <-]; constructor|by intros ->%Forall2_nil_inv_l].
  - cbn. destruct (f x) as [y|e] eqn:Hx; cbn.
    + destruct (mapM f l) as [k'|e] eqn:Hl; cbn.
      * split.
        { intros [= <-]. constructor; [done|by apply IH]. }
        intros (y' & k'' & Hy & Hk & ->)%Forall2_cons_inv_l.
        apply IH in Hk. unfold mret, result_ret. congruence.
      * split; [done|].
        intros (y' & k'' & Hy & Hk & ->)%Forall2_cons_inv_l. by apply IH in Hk.
    + split; [done|].
      intros (y' & k'' & Hy & Hk & ->)%Forall2_cons_inv_l. congruence.
Qed.

Lemma result_mapM_Forall2 {A B} (f : A → result B) (l : list A) (k : list B) :
  Forall2 (λ x y, f x = Ok y) l k → mapM f l = Ok k.
Proof. apply result_mapM_Ok. Qed.

(** It raises what the first failing call raises. *)
Lemma result_mapM_Raise {A B} (f : A → result B) (l : list A) i x e :
  l !! i = Some x → f x = Raise e →
  (∀ j y, j < i → l !! j = Some y → is_raise (f y) = false) →
  mapM f l = Raise e.
Proof.
  revert i. induction l as [|x0 l IH]; intros i Hx He Hbefore; [done|].
  change (mapM f (x0 :: l)) with (y ← f x0; k ← mapM f l; mret (y :: k)).
  destruct i as [|i]; simplify_eq/=; [by rewrite He|].
  pose proof (Hbefore 0 x0 ltac:(lia) eq_refl) as H0.
  rewrite (IH i Hx He).
  - by destruct (f x0).
  - intros j y Hj Hy. apply (Hbefore (S j) y); [lia|done].
Qed.

(** When no call fails it returns. *)
Lemma result_mapM_is_Ok {A B} (f : A → result B) (l : list A) :
  Forall (λ x, is_raise (f x) = false) l → ∃ k, mapM f l = Ok k.
Proof.
  induction 1 as [|x l Hx _ [k IH]]; [by exists []|].
  destruct (f x) as [y|] eqn:Hy; [|done]. exists (y :: k). cbn. by rewrite Hy, IH.
Qed.

(** ** Order of binary64 values *)

Ltac cmp_cases :=
  repeat match goal with
  | |- context [PosDef.Pos.compare_cont Eq ?a ?b] =>
      change (PosDef.Pos.compare_cont Eq a b) with (Pos.compare a b)
  end;
  repeat match goal with
  | |- context [(?a ?= ?b)%Z] => destruct (Z.compare_spec a b); subst
  | |- context [(?a ?= ?b)%positive] => destruct (Pos.compare_spec a b); subst
  end; simpl; try reflexivity; try discriminate; try lia.

Ltac sf_cases :=
  repeat match goal with
  | f : spec_float |- _ => destruct f as [[]|[]| |[] ? ?]
  end; simpl; try reflexivity; try discriminate.

Lemma SFleb_trans a b c : SFleb a b = true → SFleb b c = true → SFleb a c = true.
Proof. unfold SFleb; sf_cases; cmp_cases. Qed.

Lemma SFleb_ltb_trans a b c : SFleb a b = true → SFltb b c = true → SFltb a c = true.
Proof. unfold SFleb, SFltb; sf_cases; cmp_cases. Qed.

Lemma SFltb_false_leb a b :
  SFeqb a a = true → SFeqb b b = true → SFltb b a = false → SFleb a b = true.
Proof. unfold SFleb, SFltb, SFeqb; sf_cases; cmp_cases. Qed.

Lemma SFeqb_nan_only a : SFeqb a a = false → a = S754_nan.
Proof. unfold SFeqb; sf_cases; cmp_cases. Qed.

Lemma SFeqb_infinity a s : SFeqb a (S754_infinity s) = true → a = S754_infinity s.
Proof. unfold SFeqb; destruct s; sf_cases. Qed.

Section FloatOrder.
Open Scope float_scope.
Implicit Types x y z : float.

Lemma not_nan_eqb x : is_nan x = false → SFeqb (Prim2SF x) (Prim2SF x) = true.
Proof.
  unfold is_nan. rewrite FloatAxioms.eqb_spec. by destruct (SFeqb _ _).
Qed.

Lemma fle_refl x : is_nan x = false → (x <=? x) = true.
Proof.
  intros H%not_nan_eqb. rewrite leb_spec. revert H. unfold SFeqb, SFleb.
  by destruct (SFcompare _ _) as [[]|].
Qed.

Lemma fle_trans x y z : (x <=? y) = true → (y <=? z) = true → (x <=? z) = true.
Proof. rewrite !leb_spec. apply SFleb_trans. Qed.

Lemma fle_flt_trans x y z : (x <=? y) = true → (y <? z) = true → (x <? z) = true.
Proof. rewrite leb_spec, !ltb_spec. apply SFleb_ltb_trans. Qed.

Lemma flt_fle x y : (x <? y) = true → (x <=? y) = true.
Proof.
  rewrite leb_spec, ltb_spec. unfold SFleb, SFltb.
  by destruct (SFcompare _ _) as [[]|].
Qed.

Lemma fle_of_not_flt x y :
  is_nan x = false → is_nan y = false → (y <? x) = false → (x <=? y) = true.
Proof.
  intros Hx%not_nan_eqb Hy%not_nan_eqb. rewrite leb_spec, ltb_spec.
  by apply SFltb_false_leb.
Qed.

(** There is one NaN. *)
Lemma is_nan_eq x : is_nan x = true → x = nan.
Proof.
  unfold is_nan. rewrite FloatAxioms.eqb_spec. intros H.
  rewrite <- (SF2Prim_Prim2SF x), (SFeqb_nan_only (Prim2SF x)); [done|].
  by destruct (SFeqb _ _).
Qed.

Lemma eqb_infinity_eq x : (x =? infinity) = true → x = infinity.
Proof.
  rewrite FloatAxioms.eqb_spec. change (Prim2SF infinity) with (S754_infinity false).
  intros H%SFeqb_infinity. by rewrite <- (SF2Prim_Prim2SF x), H.
Qed.

Lemma eqb_neg_infinity_eq x : (x =? neg_infinity) = true → x = neg_infinity.
Proof.
  rewrite FloatAxioms.eqb_spec. change (Prim2SF neg_infinity) with (S754_infinity true).
  intros H%SFeqb_infinity. by rewrite <- (SF2Prim_Prim2SF x), H.
Qed.
End FloatOrder.

(** ** Selecting the best row *)

Section IdxMax.
Open Scope float_scope.

Lemma best_so_far_step seen v best :
  best_so_far seen best →
  best_so_far (seen ++ [v])
    (if is_nan v then best
     else match best with
          | None => Some (length seen, v)
          | Some (_, b) => if b <? v then Some (length seen, v) else best
          end).
Proof.
  intros Hinv.
  assert (Hsnoc : ∀ j w, (seen ++ [v]) !! j = Some w →
            seen !! j = Some w ∨ (j = length seen ∧ w = v)).
  { intros j w [?|[Hle Hw]]%lookup_app_Some; [by left|right].
    apply list_lookup_singleton_Some in Hw as [Hj ->]. split; [lia|done]. }
  destruct (is_nan v) eqn:Hv.
  - destruct best as [[i b]|]; simpl in *.
    + destruct Hinv as (Hi & Hb & Hmax). split_and!; [|done|].
      * by apply lookup_app_l_Some.
      * intros j w [?|[-> ->]]%Hsnoc Hw; [by apply Hmax|congruence].
    + intros j w [?|[-> ->]]%Hsnoc; [by eapply Hinv|done].
  - destruct best as [[i b]|]; simpl in *.
    + destruct Hinv as (Hi & Hb & Hmax).
      assert (i < length seen) by by eapply lookup_lt_Some.
      destruct (b <? v) eqn:Hlt; simpl.
      * split_and!; [by apply list_lookup_middle|done|].
        intros j w [Hj|[-> ->]]%Hsnoc Hw.
        -- destruct (Hmax j w Hj Hw) as [Hle _].
           assert ((w <? v) = true) by by eapply fle_flt_trans.
           split; [by apply flt_fle|done].
        -- split; [by apply fle_refl|lia].
      * split_and!; [by apply lookup_app_l_Some|done|].
        intros j w [Hj|[-> ->]]%Hsnoc Hw; [by apply Hmax|].
        split; [by apply fle_of_not_flt|lia].
    + split_and!; [by apply list_lookup_middle|done|].
      intros j w [Hj|[-> ->]]%Hsnoc Hw.
      * apply Hinv in Hj. congruence.
      * split; [by apply fle_refl|lia].
Qed.

Lemma idxmax_from_spec vs seen best :
  best_so_far seen best →
  best_so_far (seen ++ vs) (idxmax_from (length seen) vs best).
Proof.
  revert seen best. induction vs as [|v vs IH]; intros seen best Hinv; simpl.
  - by rewrite app_nil_r.
  - apply (best_so_far_step seen v) in Hinv.
    apply IH in Hinv. rewrite length_app, Nat.add_1_r in Hinv.
    by rewrite <- app_assoc in Hinv.
Qed.

(** [idxmax] returns the first position of the largest value that is not
    NaN, and answers whenever there is such a value. *)
Lemma idxmax_spec vs :
  best_so_far vs (idxmax_from 0 vs None).
Proof. by apply (idxmax_from_spec vs [] None). Qed.

Lemma idxmax_Some vs i :
  idxmax vs = Some i →
  ∃ v, vs !! i = Some v ∧ is_nan v = false ∧
       ∀ j w, vs !! j = Some w → is_nan w = false →
              (w <=? v) = true ∧ (j < i → (w <? v) = true).
Proof.
  unfold idxmax. pose proof (idxmax_spec vs) as H.
  destruct (idxmax_from 0 vs None) as [[i' b]|]; simpl; [|done].
  intros [= <-]. by exists b.
Qed.

Lemma idxmax_None vs :
  idxmax vs = None → ∀ j w, vs !! j = Some w → is_nan w = true.
Proof.
  unfold idxmax. pose proof (idxmax_spec vs) as H.
  by destruct (idxmax_from 0 vs None) as [[i' b]|].
Qed.
End IdxMax.

(** On a frame with a row the column is there. *)
Lemma select_best_nonempty results :
  results ≠ [] →
  select_best results
  = match idxmax (final_test_ham_acc <$> results) with
    | None => Raise (ValueError "Encountered all NA values")
    | Some i =>
        match results !! i with
        | Some r => Ok r
        | None => Raise (KeyError (pretty i))
        end
    end.
Proof. by destruct results. Qed.

(** The row [select_best] returns is the first row of largest Hamming
    accuracy among the rows whose Hamming accuracy is not NaN. *)
Lemma select_best_max results :
  has_defined results →
  ∃ i best,
    select_best results = Ok best ∧ results !! i = Some best ∧
    is_nan (final_test_ham_acc best) = false ∧
    ∀ j r, results !! j = Some r → is_nan (final_test_ham_acc r) = false →
           (final_test_ham_acc r <=? final_test_ham_acc best)%float = true ∧
           (j < i → (final_test_ham_acc r <? final_test_ham_acc best)%float = true).
Proof.
  intros (r0 & [k Hk]%list_elem_of_lookup & Hr0).
  rewrite select_best_nonempty by by intros ->.
  destruct (idxmax (final_test_ham_acc <$> results)) as [i|] eqn:Hidx.
  - apply idxmax_Some in Hidx as (v & Hv & Hnan & Hmax).
    rewrite list_lookup_fmap in Hv.
    destruct (results !! i) as [best|] eqn:Hbest; simplify_eq/=.
    exists i, best. split_and!; [done..|].
    intros j r Hj Hr. apply Hmax; [|done].
    by rewrite list_lookup_fmap, Hj.
  - exfalso. pose proof (idxmax_None _ Hidx k (final_test_ham_acc r0)) as H.
    rewrite list_lookup_fmap, Hk in H. specialize (H eq_refl). congruence.
Qed.

(** C2: on results with at least one defined Hamming accuracy, [select_best]
    returns a row of the sequence whose Hamming accuracy is defined and is
    at least the Hamming accuracy of every row with a defined one, rows with
    NaN being left out; for Hamming accuracies 0.80, 0.95, 0.10 it returns
    the 0.95 row. *)
Theorem select_best_returns_max_defined :
  (∀ results, has_defined results →
     ∃ best, select_best results = Ok best ∧ best ∈ results ∧
       is_nan (final_test_ham_acc best) = false ∧
       ∀ r, r ∈ results → is_nan (final_test_ham_acc r) = false →
            (final_test_ham_acc r <=? final_test_ham_acc best)%float = true)
  ∧ (∀ r1 r2 r3,
       final_test_ham_acc r1 = 0.80%float →
       final_test_ham_acc r2 = 0.95%float →
       final_test_ham_acc r3 = 0.10%float →
       select_best [r1; r2; r3] = Ok r2).
Proof.
  split.
  - intros results (i & best & Hsel & Hi & Hnan & Hmax)%select_best_max.
    exists best. split_and!; [done|by eapply list_elem_of_lookup_2|done|].
    intros r [j Hj]%list_elem_of_lookup Hr. by apply (Hmax j r).
  - intros r1 r2 r3 H1 H2 H3. unfold select_best. simpl. by rewrite H1, H2, H3.
Qed.

(** A table in which two rows have no Hamming accuracy: they are passed
    over. *)
Lemma select_best_returns_max_defined_witness :
  let row ham := RunResult "triv_aug" 16 5 0.001%float 0.3%float ham
                   (PyFloat 0.1%float) in
  ∃ best,
    select_best [row nan; row 0.80%float; row nan; row 0.95%float; row 0.10%float]
      = Ok best ∧
    final_test_ham_acc best = 0.95%float.
Proof.
  intros row.
  destruct (proj1 select_best_returns_max_defined
              [row nan; row 0.80%float; row nan; row 0.95%float; row 0.10%float])
    as (best & Hsel & _).
  - exists (row 0.80%float). split; [|done]. set_solver.
  - exists best. split; [done|]. vm_compute in Hsel. by injection Hsel as <-.
Defined.

(** ** The sweep *)

Section SweepFacts.
Context {World : Type} (train : World → point → World * result train_results).

Lemma length_trial_answers ps w : length (trial_answers train ps w) = length ps.
Proof.
  revert w. induction ps as [|p ps IH]; intros w; simpl; [done|].
  destruct (train w p) as [w' a]. simpl. by rewrite IH.
Qed.

(** The loop appends, in order, one row per point. *)
Lemma sweep_loop_rows ps w acc loader :
  (sweep_loop train ps w acc loader).1.2
  = acc ++ zip_with record_trial ps (trial_answers train ps w).
Proof.
  revert w acc loader. induction ps as [|p ps IH]; intros w acc loader; simpl.
  - by rewrite app_nil_r.
  - unfold run_trial. destruct (train w p) as [w' a]. simpl.
    by rewrite IH, <- app_assoc.
Qed.

Lemma sweep_over_rows ps w :
  (sweep_over train ps w).2 = zip_with record_trial ps (trial_answers train ps w).
Proof. unfold sweep_over. by rewrite sweep_loop_rows. Qed.

Lemma length_sweep_over ps w : length (sweep_over train ps w).2 = length ps.
Proof.
  rewrite sweep_over_rows, length_zip_with_l_eq; [done|].
  by rewrite length_trial_answers.
Qed.

Lemma sweep_over_lookup ps w i p :
  ps !! i = Some p →
  ∃ a, trial_answers train ps w !! i = Some a ∧
       (sweep_over train ps w).2 !! i = Some (record_trial p a).
Proof.
  intros Hp. destruct (trial_answers train ps w !! i) as [a|] eqn:Ha.
  - exists a. split; [done|]. by rewrite sweep_over_rows, lookup_zip_with, Hp, Ha.
  - apply lookup_ge_None in Ha. apply lookup_lt_Some in Hp.
    rewrite length_trial_answers in Ha. lia.
Qed.

Lemma row_point_record_trial p a : row_point (record_trial p a) = point_key p.
Proof.
  unfold record_trial, try_body. destruct a as [tr|e]; [|done]. cbn.
  destruct (py_last (test_loss tr)); [|done]. cbn.
  destruct (py_last (test_ham_acc tr)); [|done]. cbn.
  by destruct (py_last (test_zero_one_acc tr)).
Qed.

(** A stateless routine answers every point the same way in every sweep. *)
Lemma stateless_answers ps w w0 :
  stateless train → trial_answers train ps w = (λ p, (train w0 p).2) <$> ps.
Proof.
  intros Hst. revert w. induction ps as [|p ps IH]; intros w; simpl; [done|].
  specialize (Hst w w0 p). destruct (train w p) as [w' a]; simpl in *.
  by rewrite IH, Hst.
Qed.
End SweepFacts.

Lemma length_grid nb : length (grid nb) = 36.
Proof. done. Qed.



(** ** Order of enumeration *)

Lemma float_neq (x y : float) : (x =? y)%float = false → (x =? x)%float = true → x ≠ y.
Proof. intros Hxy Hxx ->. congruence. Qed.

(** C4 as stated fails: the notebooks hand one model object to every trial,
    so with a routine that trains that model further, the point with batch
    size 16 gets Hamming accuracy 0.5 when it is run first and 0.9 when it
    is run after the point with batch size 32. *)
Lemma sweep_order_changes_metrics :
  point_b16 ∈ grid densenet201 ∧ point_b32 ∈ grid densenet201
  ∧ [point_b16; point_b32] ≡ₚ [point_b32; point_b16]
  ∧ (sweep_over warm_start_train [point_b16; point_b32] 0).2 !! 0
      = Some (success_row point_b16 0.4 0.5 (TensorScalar 0.1))
  ∧ (sweep_over warm_start_train [point_b32; point_b16] 0).2 !! 1
      = Some (success_row point_b16 0.4 0.9 (TensorScalar 0.1))
  ∧ ¬ order_independent warm_start_train 0
        [point_b16; point_b32] [point_b32; point_b16].
Proof.
  split_and!.
  - by apply (list_elem_of_lookup_2 _ 0).
  - by apply (list_elem_of_lookup_2 _ 6).
  - apply perm_swap.
  - done.
  - done.
  - intros H.
    specialize (H 0 1 point_b16 _ _ eq_refl eq_refl eq_refl eq_refl).
    apply (f_equal final_test_ham_acc) in H. simpl in H.
    by apply float_neq in H.
Qed.

(** C4, amended: when the answer of the training routine for a point does
    not depend on the world the earlier trials left (a routine that builds
    or resets its model itself), every enumeration order of the grid gives
    each point the same row, and the results differ by their order only. *)
Theorem sweep_order_independent_if_stateless {World}
    (train : World → point → World * result train_results)
    (w : World) (ps1 ps2 : list point) :
  stateless train →
  ps1 ≡ₚ ps2 →
  order_independent train w ps1 ps2
  ∧ (sweep_over train ps1 w).2 ≡ₚ (sweep_over train ps2 w).2.
Proof.
  intros Hst Hperm.
  assert (Hrows : ∀ ps, (sweep_over train ps w).2
                        = (λ p, record_trial p (train w p).2) <$> ps).
  { intros ps. rewrite sweep_over_rows, (stateless_answers train ps w w Hst).
    by rewrite zip_with_fmap_r, zip_with_diag. }
  split.
  - intros i j p r1 r2 H1 H2. rewrite !Hrows, !list_lookup_fmap, H1, H2. simpl.
    congruence.
  - by rewrite !Hrows, Hperm.
Qed.

(** With the model rebuilt for every trial the two orders agree. *)
Lemma sweep_order_independent_if_stateless_witness :
  order_independent fresh_model_train 0
    [point_b16; point_b32] [point_b32; point_b16]
  ∧ (sweep_over fresh_model_train [point_b16; point_b32] 0).2
    ≡ₚ (sweep_over fresh_model_train [point_b32; point_b16] 0).2.
Proof.
  apply sweep_order_independent_if_stateless.
  - intros w w' p. reflexivity.
  - apply perm_swap.
Defined.

(** ** The grid *)

Lemma length_bind_const {A B} (f : A → list B) (l : list A) (k : nat) :
  (∀ x, length (f x) = k) → length (l ≫= f) = length l * k.
Proof.
  intros Hf. induction l as [|x l IH]; [done|].
  rewrite bind_cons, length_app, Hf, IH. simpl. lia.
Qed.

Section Product.
Context {A B C : Type}.
Implicit Types (xs : list A) (ys : list B) (zs : list C).

Lemma length_product3 xs ys zs :
  length (product3 xs ys zs) = length xs * length ys * length zs.
Proof.
  unfold product3.
  rewrite (length_bind_const _ xs (length ys * length zs)); [lia|].
  intros x. rewrite (length_bind_const _ ys (length zs)); [done|].
  intros y. by rewrite (length_bind_const _ zs 1); [lia|].
Qed.

Lemma elem_of_product3 xs ys zs x y z :
  (x, y, z) ∈ product3 xs ys zs ↔ x ∈ xs ∧ y ∈ ys ∧ z ∈ zs.
Proof.
  unfold product3. setoid_rewrite list_elem_of_bind.
  setoid_rewrite list_elem_of_bind. setoid_rewrite list_elem_of_bind.
  setoid_rewrite list_elem_of_singleton. naive_solver.
Qed.

Lemma NoDup_product3 xs ys zs :
  NoDup xs → NoDup ys → NoDup zs → NoDup (product3 xs ys zs).
Proof.
  intros Hx Hy Hz. unfold product3.
  apply NoDup_bind; [|intros x _; apply NoDup_bind|done].
  - intros x1 x2 [[a b] c] _ _.
    setoid_rewrite list_elem_of_bind. setoid_rewrite list_elem_of_bind.
    setoid_rewrite list_elem_of_singleton. naive_solver.
  - intros y1 y2 [[a b] c] _ _.
    setoid_rewrite list_elem_of_bind. setoid_rewrite list_elem_of_singleton.
    naive_solver.
  - intros y _. apply NoDup_bind; [|intros; apply NoDup_singleton|done].
    intros z1 z2 ? _ _. rewrite !list_elem_of_singleton. naive_solver.
  - done.
Qed.
End Product.

#[global] Instance to_point_inj : Inj (=) (=) to_point.
Proof. intros [t1 [[b1 e1] l1]] [t2 [[b2 e2] l2]] [=]. by subst. Qed.

Lemma NoDup_lrs : NoDup lrs.
Proof.
  unfold lrs. repeat (apply NoDup_cons; split); try apply NoDup_nil_2;
    rewrite ?not_elem_of_cons; split_and?; try apply not_elem_of_nil;
    by apply float_neq.
Qed.

(** C6: the grid enumerated over choice lists of sizes a (batch sizes), b
    (epoch counts), c (learning rates) and d (augmentation variants) has
    a·b·c·d points; it holds exactly the combinations of one choice from
    each list, and no point twice when no list repeats a choice.  On the
    choices of each of the three notebooks that is 36 distinct points. *)
Theorem enumerate_grid_cross_product :
  (∀ T (ts : list T) bs es ls,
     length (enumerate_grid ts bs es ls)
       = length bs * length es * length ls * length ts
     ∧ (∀ t b e l, (t, (b, e, l)) ∈ enumerate_grid ts bs es ls
                   ↔ t ∈ ts ∧ b ∈ bs ∧ e ∈ es ∧ l ∈ ls)
     ∧ (NoDup ts → NoDup bs → NoDup es → NoDup ls →
        NoDup (enumerate_grid ts bs es ls)))
  ∧ Forall (λ nb, length (grid nb) = 3 * 2 * 3 * 2 ∧ NoDup (grid nb)) notebooks.
Proof.
  assert (Hgen : ∀ T (ts : list T) bs es ls,
    (∀ t b e l, (t, (b, e, l)) ∈ enumerate_grid ts bs es ls
                ↔ t ∈ ts ∧ b ∈ bs ∧ e ∈ es ∧ l ∈ ls)
    ∧ (NoDup ts → NoDup bs → NoDup es → NoDup ls →
       NoDup (enumerate_grid ts bs es ls))).
  { intros T ts bs es ls. split.
    - intros t b e l. unfold enumerate_grid.
      setoid_rewrite list_elem_of_bind. setoid_rewrite list_elem_of_bind.
      setoid_rewrite list_elem_of_singleton. split.
      + intros (t' & (c & [= <- <-] & Hc) & Ht).
        apply elem_of_product3 in Hc. naive_solver.
      + intros (Ht & Hb & He & Hl). exists t. split; [|done].
        exists (b, e, l). split; [done|]. by apply elem_of_product3.
    - intros Ht Hb He Hl. unfold enumerate_grid.
      apply NoDup_bind; [| |done].
      + intros t1 t2 [t c] _ _.
        setoid_rewrite list_elem_of_bind. setoid_rewrite list_elem_of_singleton.
        naive_solver.
      + intros t _. apply NoDup_bind; [|intros; apply NoDup_singleton|].
        * intros c1 c2 ? _ _. rewrite !list_elem_of_singleton. naive_solver.
        * by apply NoDup_product3. }
  split.
  - intros T ts bs es ls. split; [|apply Hgen].
    unfold enumerate_grid.
    rewrite (length_bind_const _ ts (length bs * length es * length ls)); [lia|].
    intros t. rewrite (length_bind_const _ _ 1); [|done].
    rewrite length_product3. lia.
  - unfold notebooks. repeat apply Forall_cons_2; [..|apply Forall_nil_2].
    all: split; [done|].
    all: apply (NoDup_fmap_2 to_point), Hgen; [|by compute_done..|apply NoDup_lrs].
    all: apply NoDup_cons; split; [|apply NoDup_singleton].
    all: by apply not_elem_of_cons; split; [|apply not_elem_of_nil].
Qed.

(** The grid of the DenseNet201 notebook. *)
Lemma enumerate_grid_cross_product_witness :
  length (enumerate_grid (grid_transforms densenet201) batch_size num_epochs lrs) = 36
  ∧ NoDup (enumerate_grid (grid_transforms densenet201) batch_size num_epochs lrs).
Proof.
  destruct (proj1 enumerate_grid_cross_product _
              (grid_transforms densenet201) batch_size num_epochs lrs)
    as (Hlen & _ & Hnodup).
  split; [by rewrite Hlen|].
  apply Hnodup; [|by compute_done..|apply NoDup_lrs].
  apply NoDup_cons; split; [|apply NoDup_singleton].
  by apply not_elem_of_cons; split; [|apply not_elem_of_nil].
Defined.

(** ** The persisted configuration *)

Lemma py_of_json_of_py v : py_of_json (json_of_py v) = v.
Proof.
  destruct v as [s|z|f]; simpl; [done..|]. unfold json_of_float.
  destruct (is_nan f) eqn:Hnan; simpl; [by rewrite (is_nan_eq f)|].
  destruct (f =? infinity)%float eqn:Hinf; simpl; [by rewrite (eqb_infinity_eq f)|].
  destruct (f =? neg_infinity)%float eqn:Hninf; simpl; [|done].
  by rewrite (eqb_neg_infinity_eq f).
Qed.

Lemma load_persist_config filepath config fs :
  load_config filepath (persist_config filepath config fs) = Ok config.
Proof.
  unfold load_config, persist_config. rewrite lookup_insert_eq.
  rewrite <- map_fmap_compose. f_equal. rewrite <- (map_fmap_id config) at 2.
  apply map_fmap_ext. intros k v _. apply py_of_json_of_py.
Qed.

(** C7: a configuration written by [persist_config] and read back by
    [load_config] from the same file is the dictionary that was written,
    key for key and value for value; the best parameters have exactly the
    seven keys transform, batch_size, epochs, lr, final_test_loss,
    final_test_ham_acc and final_test_zero_one_acc; and the retrain cell
    chooses the same augmentation branch from the configuration read back
    as from the one written. *)
Theorem best_params_round_trip :
  (∀ filepath config fs,
     load_config filepath (persist_config filepath config fs) = Ok config)
  ∧ (∀ nb best_row fs,
       load_best_params nb (save_best_params nb best_row fs)
         = Ok (best_params best_row))
  ∧ (∀ best_row,
       dom (best_params best_row)
         =@{gset string} {[ "transform"; "batch_size"; "epochs"; "lr";
              "final_test_loss"; "final_test_ham_acc"; "final_test_zero_one_acc" ]})
  ∧ (∀ float_repr nb best_row fs loop_loader,
       (config ← load_best_params nb (save_best_params nb best_row fs);
        retrain_loader float_repr nb config loop_loader)
       = retrain_loader float_repr nb (best_params best_row) loop_loader).
Proof.
  split_and!.
  - apply load_persist_config.
  - intros. apply load_persist_config.
  - intros r. unfold best_params. rewrite !dom_insert_L, dom_singleton_L. set_solver.
  - intros. unfold load_best_params, save_best_params.
    by rewrite load_persist_config.
Qed.

(** ** The retrain guard *)

Lemma retrain_loader_unknown float_repr nb baseline_name config name loop_loader :
  nb_retrain_baseline nb = Some baseline_name →
  config !! "transform" = Some (PStr name) →
  retrain_loader float_repr nb config loop_loader
    = Raise (ValueError ("Unknown transform: " +:+ name))
  ↔ name ≠ "triv_aug" ∧ name ≠ baseline_name.
Proof.
  intros Hnb Hcfg. unfold retrain_loader, getitem, choose_pipeline, new_loader.
  rewrite Hnb, Hcfg.
  cbn. repeat case_bool_decide; subst; cbn.
  all: try (destruct (config !! "batch_size") as [[]|]; cbn; try case_bool_decide).
  all: split; [try done|naive_solver].
Qed.

(** The ResNet-18 notebook has the guard the specification describes. *)
Lemma resnet_guard_matches_grid float_repr : guard_matches_grid float_repr resnet18.
Proof.
  intros config name loop_loader Hcfg.
  rewrite (retrain_loader_unknown float_repr resnet18 "res18_transform"
             config name loop_loader eq_refl Hcfg).
  cbn. rewrite !not_elem_of_cons. pose proof (not_elem_of_nil name). naive_solver.
Qed.

(** C3: the guard of the DenseNet201 notebook compares with
    ['res18_transform'], so the configuration its own grid search records
    for the baseline pipeline, transform ['d201_transform'], is rejected
    with "Unknown transform" whatever its other fields are, and the name of
    another notebook is accepted: with it the loader is built when the
    batch size is positive, and [DataLoader] refuses the batch size
    otherwise.  The EfficientNet-B0 notebook has no guard and retrains on
    the loader the grid loop left, whatever the configuration names.  Run
    from the sweep on, with a routine that hands back tensors for the
    zero-one accuracies, the DenseNet201 notebook stops with that error
    when a baseline trial wins, where the ResNet-18 notebook rebuilds the
    winning loader; the EfficientNet-B0 notebook retrains on the baseline
    pipeline with batch size 64 although its best row is a trivial-augment
    trial with batch size 16. *)
Theorem densenet_guard_rejects_own_baseline (float_repr : float → string)
    (b e : Z) (l loss ham : float) (zo : metric_value)
    (loop_loader : option data_loader) (loader : data_loader) :
  ("d201_transform", Baseline) ∈ grid_transforms densenet201
  ∧ retrain_loader float_repr densenet201
      (best_params (RunResult "d201_transform" b e l loss ham zo)) loop_loader
    = Raise (ValueError "Unknown transform: d201_transform")
  ∧ retrain_loader float_repr densenet201
      (best_params (RunResult "res18_transform" b e l loss ham zo)) loop_loader
    = (if bool_decide (0 < b)%Z then Ok (DataLoader Baseline b true)
       else Raise (ValueError "batch_size should be a positive integer value"))
  ∧ retrain_loader float_repr efficientnet_b0
      (best_params (RunResult "unknown_transform" b e l loss ham zo)) (Some loader)
    = Ok loader
  ∧ tune_and_rebuild (pipeline_train Baseline) float_repr densenet201 () ∅
    = Raise (ValueError "Unknown transform: d201_transform")
  ∧ tune_and_rebuild (pipeline_train Baseline) float_repr resnet18 () ∅
    = Ok (RunResult "res18_transform" 16 5 0.001 0.4 0.9 (PyFloat 0.1),
          DataLoader Baseline 16 true)
  ∧ tune_and_rebuild (pipeline_train TrivialAugment) float_repr efficientnet_b0 () ∅
    = Ok (RunResult "triv_aug" 16 5 0.001 0.4 0.9 (PyFloat 0.1),
          DataLoader Baseline 64 true)
  ∧ ¬ guard_matches_grid float_repr densenet201
  ∧ ¬ guard_matches_grid float_repr efficientnet_b0.
Proof.
  split_and!.
  - set_solver.
  - done.
  - done.
  - done.
  - by vm_compute.
  - by vm_compute.
  - by vm_compute.
  - intros H.
    specialize (H {[ "transform" := PStr "d201_transform" ]} "d201_transform" None).
    apply H; [done|done|]. set_solver.
  - intros H.
    specialize (H {[ "transform" := PStr "unknown_transform" ]} "unknown_transform"
                  (Some (DataLoader Baseline 64 true))).
    assert (Hnot : "unknown_transform" ∉ (grid_transforms efficientnet_b0).*1).
    { cbn. rewrite !not_elem_of_cons. split_and!; [done..|apply not_elem_of_nil]. }
    by apply H in Hnot.
Qed.

(** ** The artifact names *)

(** C9: the EfficientNet-B0 notebook writes its trial results to
    [hyperparameter_testing_d201.csv], the file of the DenseNet201 notebook,
    and not to the file named for its own backbone.  Run after the
    DenseNet201 notebook in one directory, its cell that saves the table
    never writes a file named for EfficientNet-B0; when the conversion of
    the zero-one column goes through it replaces the DenseNet201 table by
    its own converted table, and when the conversion raises (a row of a
    failed trial, an empty table) it writes nothing.  The two JSON
    artifacts of every notebook carry the notebook's tag, and the column
    names are one list for the three notebooks. *)
Theorem efficientnet_results_csv_is_densenet_file :
  nb_results_csv efficientnet_b0 = "hyperparameter_testing_d201.csv"
  ∧ nb_results_csv efficientnet_b0 ≠ spec_results_csv (nb_tag efficientnet_b0)
  ∧ nb_results_csv efficientnet_b0 = nb_results_csv densenet201
  ∧ (∀ rows_d201 rows_eb0 fs,
       let fs1 := (results_cell densenet201 rows_d201 fs).2 in
       let fs2 := (results_cell efficientnet_b0 rows_eb0 fs1).2 in
       fs2 !! spec_results_csv "eb0" = fs !! spec_results_csv "eb0"
       ∧ match (results_cell efficientnet_b0 rows_eb0 fs1).1 with
         | Ok results_df =>
             zero_one_items rows_eb0 = Ok results_df
             ∧ fs2 !! spec_results_csv "d201"
               = Some (CsvTable results_columns results_df)
         | Raise e => zero_one_items rows_eb0 = Raise e ∧ fs2 = fs1
         end)
  ∧ Forall (λ nb, nb_best_params_json nb = spec_best_params_json (nb_tag nb)
                  ∧ nb_test_results_json nb = spec_test_results_json (nb_tag nb))
           notebooks
  ∧ nb_results_csv densenet201 = spec_results_csv (nb_tag densenet201)
  ∧ nb_results_csv resnet18 = spec_results_csv "Res18".
Proof.
  split_and!; try done.
  - intros rows_d201 rows_eb0 fs fs1 fs2. subst fs1 fs2.
    unfold results_cell, persist_results.
    destruct (zero_one_items rows_d201), (zero_one_items rows_eb0); cbn;
      rewrite ?lookup_insert_eq, ?lookup_insert_ne by done; done.
  - unfold notebooks. by repeat constructor.
Qed.

(** ** Cleaning the annotations *)

Section AnnotationFacts.
Variable str_to_float : string → option float.
Local Abbreviation numeric := (to_numeric str_to_float).
Local Abbreviation coerce := (coerce_labels str_to_float).
Implicit Types (r : list cell) (c : cell).

(** The sixteen columns [dropna] looks at, after the coercion. *)
Lemma take_16_coerce_labels r :
  take 16 (coerce r) = take 1 r ++ (numeric <$> take 15 (drop 1 r)).
Proof.
  unfold coerce_labels. rewrite app_assoc.
  destruct (decide (length r ≤ 16)) as [Hle|Hgt].
  - rewrite (drop_ge r 16) by done. rewrite app_nil_r. apply take_ge.
    rewrite length_app, length_fmap, !length_take, length_drop. lia.
  - apply take_app_length'.
    rewrite length_app, length_fmap, !length_take, length_drop. lia.
Qed.

(** The label cells of a coerced row. *)
Lemma labels_coerce_labels r :
  take 15 (drop 1 (coerce r)) = numeric <$> take 15 (drop 1 r).
Proof.
  unfold coerce_labels. destruct r as [|c0 r]; [done|].
  change (take 1 (c0 :: r)) with [c0]. change (drop 1 (c0 :: r)) with r.
  change (drop 16 (c0 :: r)) with (drop 15 r).
  change (drop 1 ([c0] ++ (numeric <$> take 15 r) ++ drop 15 r))
    with ((numeric <$> take 15 r) ++ drop 15 r).
  destruct (decide (length r ≤ 15)) as [Hle|Hgt].
  - rewrite (drop_ge r 15) by done. rewrite app_nil_r. apply take_ge.
    rewrite length_fmap, length_take. lia.
  - apply take_app_length'. rewrite length_fmap, length_take. lia.
Qed.

Lemma forallb_negb_existsb {A} (f : A → bool) (l : list A) :
  forallb (λ x, negb (f x)) l = negb (existsb f l).
Proof. induction l as [|x l IH]; simpl; [done|]. rewrite IH. by destruct (f x). Qed.

(** After [to_numeric] a label value is NaN exactly when the raw value does
    not parse as a number. *)
Lemma isna_to_numeric c : isna (numeric c) = true ↔ fails_to_parse str_to_float c.
Proof.
  unfold fails_to_parse, parses_as_numeric. destruct c as [f|s]; cbn.
  - split.
    + intros Hnan (f' & Hf' & [[= <-]|(s & [=] & _)]). congruence.
    + intros Hno. destruct (is_nan f) eqn:Hf; [done|].
      destruct Hno. exists f. auto.
  - destruct (str_to_float s) as [f|] eqn:Hs; cbn.
    + split.
      * intros Hnan (f' & Hf' & [[=]|(s' & [= <-] & Hs')]). congruence.
      * intros Hno. destruct (is_nan f) eqn:Hf; [done|].
        destruct Hno. exists f. split; [done|]. right. by exists s.
    + split; [|done].
      intros _ (f' & Hf' & [[=]|(s' & [= <-] & Hs')]). congruence.
Qed.

(** What makes [dropna] drop a row. *)
Lemma incomplete_iff r :
  complete (coerce r) = false ↔
    has_unparsed_label str_to_float r ∨ missing_filename r.
Proof.
  unfold complete, has_unparsed_label, missing_filename.
  setoid_rewrite <- isna_to_numeric.
  rewrite take_16_coerce_labels, forallb_negb_existsb, negb_false_iff.
  rewrite existsb_exists. setoid_rewrite <- list_elem_of_In.
  setoid_rewrite elem_of_app. setoid_rewrite list_elem_of_fmap. split.
  - intros (c & [Hc|(c0 & -> & Hc0)] & Hna).
    + right. exists c. split; [|done]. destruct r as [|c' r]; [set_solver|].
      simpl in Hc. rewrite take_0 in Hc. set_solver.
    + left. by exists c0.
  - intros [(c0 & Hc0 & Hna)|(c & Hc & Hna)].
    + exists (numeric c0). split; [|done]. right. by exists c0.
    + exists c. split; [|done]. left. destruct r as [|c' r]; simplify_eq/=.
      rewrite take_0. set_solver.
Qed.

Lemma to_numeric_numeric c : isna (numeric c) = false → is_numeric (numeric c) = true.
Proof.
  destruct c as [f|s]; simpl; [by intros ->|].
  destruct (str_to_float s); simpl; [by intros ->|done].
Qed.

(** The rows kept are the coerced rows that [dropna] finds complete. *)
Lemma elem_of_clean nb df r' :
  r' ∈ clean str_to_float nb df ↔
    ∃ r, r ∈ head nb df ∧ r' = coerce r ∧ complete (coerce r) = true.
Proof.
  unfold clean, dropna.
  rewrite list_elem_of_In, filter_In, <- list_elem_of_In, list_elem_of_fmap.
  split.
  - intros [(r & -> & Hr) Hc]. by exists r.
  - intros (r & Hr & -> & Hc). split; [by exists r|done].
Qed.

Lemma head_subseteq {Row} nb (df : list Row) (r : Row) : r ∈ head nb df → r ∈ df.
Proof.
  unfold head. destruct (nb_head nb) as [k|]; [|done].
  intros (i & Hi & _)%elem_of_take. by eapply list_elem_of_lookup_2.
Qed.

Lemma head_fmap {Row Row'} (f : Row → Row') nb (df : list Row) :
  f <$> head nb df = head nb (f <$> df).
Proof. unfold head. destruct (nb_head nb); [apply fmap_take|done]. Qed.

Lemma filter_fmap_swap {A B} (f : A → B) (P : B → bool) (l : list A) :
  List.filter P (f <$> l) = f <$> List.filter (λ a, P (f a)) l.
Proof.
  induction l as [|a l IH]; [done|]. cbn. destruct (P (f a)); cbn; by rewrite IH.
Qed.

Lemma filter_sublist {A} (P : A → bool) (l : list A) : List.filter P l `sublist_of` l.
Proof. induction l as [|x l IH]; cbn; [done|]. destruct (P x); by constructor. Qed.

(** ** The index of the frame *)

Lemma beyond_head_dec nb i : beyond_head nb i ∨ ¬ beyond_head nb i.
Proof.
  unfold beyond_head. destruct (nb_head nb) as [k|]; [|right; naive_solver].
  destruct (decide (k ≤ i)); [left; eauto|right]. intros (k' & [= <-] & ?). lia.
Qed.

Lemma elem_of_head_with_index nb df i r :
  (i, r) ∈ head nb (with_index df) ↔ df !! i = Some r ∧ ¬ beyond_head nb i.
Proof.
  unfold head, beyond_head, with_index. destruct (nb_head nb) as [k|].
  - rewrite elem_of_take. split.
    + intros (j & Hj & Hlt). rewrite list_lookup_imap in Hj.
      destruct (df !! j) as [x|] eqn:Hx; simplify_eq/=.
      split; [done|]. intros (k' & [= <-] & Hle). lia.
    + intros [Hr Hnb]. exists i. rewrite list_lookup_imap, Hr. split; [done|].
      destruct (decide (i < k)); [done|]. destruct Hnb. exists k. split; [done|lia].
  - rewrite elem_of_lookup_imap. split.
    + intros (j & x & [= -> ->] & Hx). split; [done|]. by intros (k & [=] & _).
    + intros [Hr _]. by exists i, r.
Qed.

Lemma elem_of_clean_indexed nb df i r' :
  (i, r') ∈ clean_indexed str_to_float nb df ↔
    ∃ r, df !! i = Some r ∧ ¬ beyond_head nb i
         ∧ r' = coerce r ∧ complete (coerce r) = true.
Proof.
  unfold clean_indexed.
  rewrite list_elem_of_In, filter_In, <- list_elem_of_In, list_elem_of_fmap.
  cbn. split.
  - intros [([j r] & [= -> ->] & [Hr Hnb]%elem_of_head_with_index) Hc].
    by exists r.
  - intros (r & Hr & Hnb & -> & Hc). split; [|done].
    exists (i, r). split; [done|]. by apply elem_of_head_with_index.
Qed.

(** A position is in the index when its record passes [df[:k]] and
    [dropna]. *)
Lemma elem_of_kept_index nb df i :
  i ∈ kept_index str_to_float nb df ↔
    ∃ r, df !! i = Some r ∧ ¬ beyond_head nb i ∧ complete (coerce r) = true.
Proof.
  unfold kept_index. rewrite list_elem_of_fmap. split.
  - intros ([j r'] & -> & (r & ? & ? & _ & ?)%elem_of_clean_indexed). by exists r.
  - intros (r & ? & ? & ?). exists (i, coerce r). split; [done|].
    apply elem_of_clean_indexed. by exists r.
Qed.

Lemma fst_with_index df : (with_index df).*1 = seq 0 (length df).
Proof.
  unfold with_index. rewrite fmap_imap.
  rewrite (imap_ext _ (λ j _, id j)) by done.
  by rewrite imap_seq_0, list_fmap_id.
Qed.

Lemma snd_with_index df : (with_index df).*2 = df.
Proof.
  unfold with_index. rewrite fmap_imap.
  rewrite (imap_ext _ (const id)) by done.
  by rewrite imap_const, list_fmap_id.
Qed.

(** The index is increasing: positions of the file, each at most once. *)
Lemma kept_index_sublist nb df :
  kept_index str_to_float nb df `sublist_of` seq 0 (length df).
Proof.
  unfold kept_index, clean_indexed.
  etrans; [apply fmap_sublist, filter_sublist|].
  rewrite <- list_fmap_compose.
  rewrite (list_fmap_ext _ fst (head nb (with_index df))) by by intros ? [].
  rewrite head_fmap, fst_with_index. unfold head.
  destruct (nb_head nb); [apply sublist_take|done].
Qed.

(** Without its index the frame is the one [clean] gives. *)
Lemma clean_indexed_rows nb df :
  (clean_indexed str_to_float nb df).*2 = clean str_to_float nb df.
Proof.
  unfold clean_indexed, clean, dropna.
  rewrite <- (filter_fmap_swap snd complete), <- list_fmap_compose.
  rewrite (list_fmap_ext _ (coerce ∘ snd) (head nb (with_index df)))
    by by intros ? [].
  by rewrite list_fmap_compose, head_fmap, snd_with_index.
Qed.

(** The examples loaded are the records at the positions of the index, in
    that order. *)
Lemma kept_index_examples nb df :
  Forall2 (λ i ex, ∃ r, df !! i = Some r ∧ ex = to_example (coerce r))
          (kept_index str_to_float nb df) (load_examples str_to_float nb df).
Proof.
  unfold load_examples. rewrite <- clean_indexed_rows. unfold kept_index.
  rewrite <- list_fmap_compose. apply Forall2_fmap, Forall_Forall2_diag.
  apply Forall_forall. intros [i r'] (r & Hr & _ & -> & _)%elem_of_clean_indexed.
  cbn. by exists r.
Qed.
End AnnotationFacts.

(** C8 as stated fails.  [dropna] is given the first sixteen columns, the
    [filename] column among them, so a record whose file name is blank is
    excluded although each of its fifteen label values parses; and the
    EfficientNet-B0 notebook reads five rows only, so the sixth record of
    a file is excluded although it is complete. *)
Lemma blank_filename_excluded :
  excluded flag_parser densenet201 [good_row; blank_filename_row] 1
  ∧ ¬ has_unparsed_label flag_parser blank_filename_row
  ∧ load_examples flag_parser densenet201 [good_row; blank_filename_row]
    = [Example (CStr "frame_001.jpg") (replicate 15 (CNum 1%float))]
  ∧ excluded flag_parser efficientnet_b0 (replicate 6 good_row) 5
  ∧ ¬ has_unparsed_label flag_parser good_row
  ∧ length (load_examples flag_parser efficientnet_b0 (replicate 6 good_row)) = 5.
Proof.
  split_and!; [| |done| | |done].
  - unfold excluded. change (kept_index _ _ _) with [0]. set_solver.
  - intros (c & Hc & Hna).
    change (take 15 (drop 1 blank_filename_row)) with (replicate 15 (CNum 1%float)) in Hc.
    apply elem_of_replicate in Hc as [-> _]. apply Hna. exists 1%float. auto.
  - unfold excluded. change (kept_index _ _ _) with [0; 1; 2; 3; 4]. set_solver.
  - intros (c & Hc & Hna).
    change (take 15 (drop 1 good_row)) with (replicate 15 (CStr "1")) in Hc.
    apply elem_of_replicate in Hc as [-> _]. apply Hna. exists 1%float.
    split; [done|]. right. by exists "1".
Qed.

(** C8, amended: the record at a position of the annotations file is
    excluded from the dataset exactly when one of its fifteen raw label
    values fails to parse as a number, or its [filename] field is missing,
    or the notebook does not read that far (the EfficientNet-B0 notebook
    reads the first five records, the two others read all).  The dataset
    holds the other records, once each and in the order of the file;
    nothing is raised; and when the frame has its sixteen columns every
    record of the dataset carries fifteen label values that are all
    numbers. *)
Theorem excluded_iff_unparsed_label_or_blank_filename
    (str_to_float : string → option float) (nb : notebook) (df : list (list cell)) :
  (∀ i r, df !! i = Some r →
     (excluded str_to_float nb df i ↔
        has_unparsed_label str_to_float r ∨ missing_filename r ∨ beyond_head nb i))
  ∧ (∀ i, beyond_head efficientnet_b0 i ↔ 5 ≤ i)
  ∧ (∀ i, ¬ beyond_head densenet201 i)
  ∧ (∀ i, ¬ beyond_head resnet18 i)
  ∧ kept_index str_to_float nb df `sublist_of` seq 0 (length df)
  ∧ Forall2 (λ i ex, ∃ r, df !! i = Some r
                          ∧ ex = to_example (coerce_labels str_to_float r))
            (kept_index str_to_float nb df) (load_examples str_to_float nb df)
  ∧ (Forall (λ r, 16 ≤ length r) df →
     Forall (λ ex, length (ex_labels ex) = 15
                   ∧ Forall (λ c, is_numeric c = true) (ex_labels ex))
            (load_examples str_to_float nb df)).
Proof.
  split_and!.
  - intros i r Hr. unfold excluded. rewrite elem_of_kept_index. split.
    + intros Hno. destruct (beyond_head_dec nb i) as [Hb|Hb]; [auto|].
      destruct (complete (coerce_labels str_to_float r)) eqn:Hc.
      { destruct Hno. by exists r. }
      apply incomplete_iff in Hc. tauto.
    + intros H (r' & Hr' & Hnb & Hc). simplify_eq.
      assert (has_unparsed_label str_to_float r ∨ missing_filename r) as Hbad by tauto.
      apply incomplete_iff in Hbad. congruence.
  - unfold beyond_head. cbn. naive_solver.
  - unfold beyond_head. cbn. naive_solver.
  - unfold beyond_head. cbn. naive_solver.
  - apply kept_index_sublist.
  - apply kept_index_examples.
  - intros Hwide. apply Forall_forall. intros ex.
    unfold load_examples. rewrite list_elem_of_fmap.
    intros (r' & -> & (r & Hr & -> & Hkeep)%elem_of_clean). simpl.
    rewrite labels_coerce_labels.
    apply head_subseteq in Hr. rewrite Forall_forall in Hwide. apply Hwide in Hr.
    split.
    + rewrite length_fmap, length_take, length_drop. lia.
    + apply Forall_forall. intros c (c0 & -> & Hc0)%list_elem_of_fmap.
      apply to_numeric_numeric.
      destruct (isna (to_numeric str_to_float c0)) eqn:Hna; [|done].
      assert (complete (coerce_labels str_to_float r) = false); [|congruence].
      apply incomplete_iff. left. exists c0. split; [done|].
      by apply isna_to_numeric.
Qed.

(** A frame of three rows: the complete one is kept with its fifteen
    numbers, the two others are excluded. *)
Lemma excluded_iff_unparsed_label_or_blank_filename_witness :
  Forall (λ ex, length (ex_labels ex) = 15
                ∧ Forall (λ c, is_numeric c = true) (ex_labels ex))
         (load_examples flag_parser resnet18
            [good_row; blank_filename_row; bad_flag_row])
  ∧ length (load_examples flag_parser resnet18
              [good_row; blank_filename_row; bad_flag_row]) = 1
  ∧ excluded flag_parser resnet18 [good_row; blank_filename_row; bad_flag_row] 2.
Proof.
  destruct (excluded_iff_unparsed_label_or_blank_filename flag_parser resnet18
              [good_row; blank_filename_row; bad_flag_row])
    as (Hiff & _ & _ & _ & _ & _ & Hnum).
  split_and!; [|done|].
  - apply Hnum. repeat constructor; simpl; lia.
  - apply (Hiff 2 bad_flag_row eq_refl).
    left. exists (CStr "yes"). split; [set_solver|].
    intros (f & _ & [[=]|(s & [= <-] & [=])]).
Defined.

(** ** Splitting *)

Lemma ceil_div_spec n d : 0 < d → n ≤ d * ceil_div n d ∧ d * ceil_div n d < n + d.
Proof.
  intros Hd. unfold ceil_div.
  pose proof (Nat.div_mod_eq (n + (d - 1)) d) as Heq.
  pose proof (Nat.mod_upper_bound (n + (d - 1)) d) as Hlt.
  lia.
Qed.

Lemma validate_shuffle_split_Ok n d n_train n_test :
  validate_shuffle_split n d = Ok (n_train, n_test) ↔
    n_test = ceil_div n d ∧ n_train = n - n_test ∧ n_train ≠ 0.
Proof.
  unfold validate_shuffle_split. case_bool_decide; split; try done.
  - naive_solver lia.
  - intros [=]. by subst.
  - intros (-> & -> & _). done.
Qed.

Section Indexing.
Context {A : Type}.
Implicit Types (X : list A) (idx : list nat).

Lemma safe_indexing_Ok X idx k :
  safe_indexing X idx = Ok k ↔ Forall2 (λ i x, X !! i = Some x) idx k.
Proof.
  unfold safe_indexing. destruct (mapM _ idx) as [k'|] eqn:Hm.
  - apply mapM_Some in Hm. split; [by intros [= <-]|].
    intros Hk. f_equal. revert k Hk.
    induction Hm as [|i x idx k' Hx _ IH]; intros k Hk; inversion Hk; subst; [done|].
    f_equal; [congruence|by apply IH].
  - split; [done|]. intros Hk%mapM_Some_2. congruence.
Qed.

Lemma safe_indexing_in_range X idx :
  (∀ i, i ∈ idx → i < length X) → ∃ k, safe_indexing X idx = Ok k.
Proof.
  intros Hin. unfold safe_indexing.
  destruct (mapM_is_Some_2 (λ i, X !! i) idx) as [k ->]; [|by exists k].
  apply Forall_forall. intros i Hi. by apply lookup_lt_is_Some_2, Hin.
Qed.

Lemma omap_Forall2 {B} (f : B → option A) l k :
  Forall2 (λ i x, f i = Some x) l k → omap f l = k.
Proof.
  induction 1 as [|i x l k Hx _ IH]; [done|].
  change (omap f (i :: l)) with (from_option (λ x, x :: omap f l) (omap f l) (f i)).
  by rewrite Hx, IH.
Qed.

(** Indexing with a permutation of the positions gives back the list up
    to order. *)
Lemma safe_indexing_Permutation X idx k :
  Forall2 (λ i x, X !! i = Some x) idx k → idx ≡ₚ seq 0 (length X) → k ≡ₚ X.
Proof.
  intros Hk Hperm. rewrite <- (omap_Forall2 _ _ _ Hk), Hperm.
  rewrite (omap_Forall2 (λ i, X !! i) (seq 0 (length X)) X); [done|].
  apply Forall2_same_length_lookup_2; [by rewrite length_seq|].
  intros i j x [-> _]%lookup_seq Hx. done.
Qed.

Lemma Forall2_lookup_zip {B} X (y : list B) idx xs ys :
  Forall2 (λ i x, X !! i = Some x) idx xs →
  Forall2 (λ i v, y !! i = Some v) idx ys →
  Forall2 (λ i p, zip X y !! i = Some p) idx (zip xs ys).
Proof.
  intros HX. revert ys. induction HX as [|i x idx xs Hx _ IH]; intros ys Hy;
    inversion Hy as [|? v ? ys' Hv Hys]; subst; simpl; constructor.
  - by rewrite lookup_zip_with, Hx, Hv.
  - by apply IH.
Qed.
End Indexing.

Section SplitLengths.
Context {RandomState : Type} (seeded : Z → RandomState).
Context (permutation : RandomState → nat → list nat * RandomState).
Context {A B : Type}.

(** Whatever the generator draws, a split that succeeds hands out at most
    the examples it was given. *)
Lemma train_test_split_Ok_lengths global (X : list A) (y : list B) d arg Xtr Xte ytr yte :
  (train_test_split seeded permutation global X y d arg).1 = Ok (Xtr, Xte, ytr, yte) →
  length Xtr + length Xte ≤ length X
  ∧ length ytr = length Xtr ∧ length yte = length Xte.
Proof.
  unfold train_test_split. case_bool_decide as Hlen; [|done].
  destruct (validate_shuffle_split (length X) d) as [[n_train n_test]|] eqn:Hval;
    [|done].
  apply validate_shuffle_split_Ok in Hval as (Hte & Htr & Hne).
  destruct (check_random_state seeded arg global) as [rng shared].
  destruct (permutation rng (length X)) as [perm rng']. cbn.
  destruct (safe_indexing X (take n_train _)) as [Xtr'|] eqn:H1; [|done]. cbn.
  destruct (safe_indexing X (take n_test _)) as [Xte'|] eqn:H2; [|done]. cbn.
  destruct (safe_indexing y (take n_train _)) as [ytr'|] eqn:H3; [|done]. cbn.
  destruct (safe_indexing y (take n_test _)) as [yte'|] eqn:H4; [|done]. cbn.
  intros [= -> -> -> ->].
  apply safe_indexing_Ok, Forall2_length in H1, H2, H3, H4.
  rewrite length_take in H1, H2, H3, H4. lia.
Qed.

Lemma split_Ok_lengths global (images : list A) (labels : list B) seed s :
  (split seeded permutation global images labels seed).1 = Ok s →
  length (X_train s) + length (X_val s) + length (X_test s) ≤ length images
  ∧ length (y_train s) = length (X_train s)
  ∧ length (y_val s) = length (X_val s)
  ∧ length (y_test s) = length (X_test s).
Proof.
  unfold split.
  destruct (train_test_split _ _ global images labels 10 _) as [first global1] eqn:H1.
  destruct first as [[[[Xtv Xte] ytv] yte]|]; [|done].
  destruct (train_test_split _ _ global1 Xtv ytv 9 _) as [second global2] eqn:H2.
  destruct second as [[[[Xtr Xva] ytr] yva]|]; [|done]. cbn. intros [= <-]. cbn.
  pose proof (train_test_split_Ok_lengths global images labels 10 (RSInt seed)
                Xtv Xte ytv yte) as Hl1.
  pose proof (train_test_split_Ok_lengths global1 Xtv ytv 9 (RSInt seed)
                Xtr Xva ytr yva) as Hl2.
  rewrite H1 in Hl1. rewrite H2 in Hl2.
  specialize (Hl1 eq_refl). specialize (Hl2 eq_refl). lia.
Qed.
End SplitLengths.

Section SplitFacts.
Context {RandomState : Type} (seeded : Z → RandomState).
Context (permutation : RandomState → nat → list nat * RandomState).
(** [rng.permutation(n)] is a permutation of [range(n)]. *)
Hypothesis permutation_spec : ∀ rng n, (permutation rng n).1 ≡ₚ seq 0 n.
Context {A B : Type}.

(** One seeded call: it succeeds as soon as the sizes are valid, hands out
    every example once, and leaves the global generator alone. *)
Lemma train_test_split_seeded global (X : list A) (y : list B) d seed n_train n_test :
  length X = length y →
  validate_shuffle_split (length X) d = Ok (n_train, n_test) →
  ∃ Xtr Xte ytr yte,
    train_test_split seeded permutation global X y d (RSInt seed)
      = (Ok (Xtr, Xte, ytr, yte), global)
    ∧ zip Xtr ytr ++ zip Xte yte ≡ₚ zip X y
    ∧ length Xtr = n_train ∧ length ytr = n_train
    ∧ length Xte = n_test ∧ length yte = n_test.
Proof.
  intros Hlen Hval. unfold train_test_split.
  rewrite bool_decide_eq_true_2 by done. rewrite Hval. cbn.
  apply validate_shuffle_split_Ok in Hval as (Hte & Htr & Hne).
  pose proof (permutation_spec (seeded seed) (length X)) as Hperm.
  destruct (permutation (seeded seed) (length X)) as [perm rng']. cbn in Hperm.
  assert (length perm = length X) as Hlp by by rewrite Hperm, length_seq.
  assert (∀ i, i ∈ perm → i < length X) as Hrange.
  { intros i. rewrite Hperm, elem_of_seq. lia. }
  set (ind_test := take n_test perm).
  set (ind_train := take n_train (drop n_test perm)).
  assert (ind_test ++ ind_train = perm) as Hsplit.
  { subst ind_test ind_train.
    rewrite (take_ge (drop n_test perm)); [apply take_drop|].
    rewrite length_drop. lia. }
  assert (∀ i, i ∈ ind_train → i < length X) as Htrain.
  { intros i Hi. apply Hrange. rewrite <- Hsplit. set_solver. }
  assert (∀ i, i ∈ ind_test → i < length X) as Htest.
  { intros i Hi. apply Hrange. rewrite <- Hsplit. set_solver. }
  destruct (safe_indexing_in_range X ind_train Htrain) as [Xtr HXtr].
  destruct (safe_indexing_in_range X ind_test Htest) as [Xte HXte].
  rewrite Hlen in Htrain, Htest.
  destruct (safe_indexing_in_range y ind_train Htrain) as [ytr Hytr].
  destruct (safe_indexing_in_range y ind_test Htest) as [yte Hyte].
  exists Xtr, Xte, ytr, yte. rewrite HXtr, HXte, Hytr, Hyte. cbn.
  apply safe_indexing_Ok in HXtr, HXte, Hytr, Hyte.
  split_and!; [done| |..].
  - rewrite (comm (++)). apply (safe_indexing_Permutation _ (ind_test ++ ind_train)).
    + apply Forall2_app; by apply Forall2_lookup_zip.
    + rewrite Hsplit, Hperm, length_zip. by rewrite <- Hlen, Nat.min_id.
  - apply Forall2_length in HXtr. rewrite <- HXtr. subst ind_train.
    rewrite length_take, length_drop. lia.
  - apply Forall2_length in Hytr. rewrite <- Hytr. subst ind_train.
    rewrite length_take, length_drop. lia.
  - apply Forall2_length in HXte. rewrite <- HXte. subst ind_test.
    rewrite length_take. lia.
  - apply Forall2_length in Hyte. rewrite <- Hyte. subst ind_test.
    rewrite length_take. lia.
Qed.

(** C5, amended: for parallel lists of at least three images and labels
    and any seed, [split] returns three parts that hold every example
    exactly once with its labels (pairwise disjoint when the examples are
    distinct), whose sizes add up to N, with a test part of ceil(N/10)
    and a validation part of ceil((N - ceil(N/10))/9) examples, each
    within one of N/10; the result is the same for every call with that
    seed, whatever the state of the global generator, which is left
    untouched. *)
Theorem split_partitions global (images : list A) (labels : list B) (seed : Z) :
  length images = length labels →
  3 ≤ length images →
  ∃ s,
    split seeded permutation global images labels seed = (Ok s, global)
    ∧ partitions images labels s
    ∧ length (X_train s) + length (X_val s) + length (X_test s) = length images
    ∧ length (X_test s) = ceil_div (length images) 10
    ∧ length (X_val s)
        = ceil_div (length images - ceil_div (length images) 10) 9
    ∧ about_a_tenth (length images) (length (X_test s))
    ∧ about_a_tenth (length images) (length (X_val s))
    ∧ (NoDup images → NoDup (X_train s ++ X_val s ++ X_test s))
    ∧ (∀ global', (split seeded permutation global' images labels seed).1 = Ok s).
Proof.
  intros Hlen HN.
  pose proof (ceil_div_spec (length images) 10) as Hc10.
  pose proof (ceil_div_spec (length images - ceil_div (length images) 10) 9) as Hc9.
  set (n_test := ceil_div (length images) 10) in *.
  set (n_tv := length images - n_test) in *.
  set (n_val := ceil_div n_tv 9) in *.
  assert (Hval1 : validate_shuffle_split (length images) 10 = Ok (n_tv, n_test)).
  { apply validate_shuffle_split_Ok. subst n_tv. lia. }
  assert (Hfirst := λ g, train_test_split_seeded g images labels 10 seed _ _ Hlen Hval1).
  destruct (Hfirst global)
    as (Xtv & Xte & ytv & yte & H1 & Hp1 & HlXtv & Hlytv & HlXte & Hlyte).
  assert (Hlen2 : length Xtv = length ytv) by lia.
  assert (Hval2 : validate_shuffle_split (length Xtv) 9 = Ok (n_tv - n_val, n_val)).
  { apply validate_shuffle_split_Ok. rewrite HlXtv. subst n_val n_tv. lia. }
  assert (Hsecond := λ g, train_test_split_seeded g Xtv ytv 9 seed _ _ Hlen2 Hval2).
  destruct (Hsecond global)
    as (Xtr & Xva & ytr & yva & H2 & Hp2 & HlXtr & Hlytr & HlXva & Hlyva).
  assert (Hany : ∀ g, split seeded permutation g images labels seed
                      = (Ok (DatasetSplit Xtr ytr Xva yva Xte yte), g)).
  { intros g. unfold split.
    destruct (Hfirst g) as (Xtv' & Xte' & ytv' & yte' & H1' & _).
    assert (Heq : (Xtv', Xte', ytv', yte') = (Xtv, Xte, ytv, yte)).
    { apply (f_equal fst) in H1, H1'. cbn in H1, H1'.
      unfold train_test_split in H1, H1'. rewrite bool_decide_eq_true_2 in H1, H1' by done.
      rewrite Hval1 in H1, H1'. cbn in H1, H1'.
      destruct (permutation (seeded seed) (length images)). cbn in H1, H1'. congruence. }
    simplify_eq. rewrite H1'.
    destruct (Hsecond g) as (Xtr' & Xva' & ytr' & yva' & H2' & _).
    assert (Heq : (Xtr', Xva', ytr', yva') = (Xtr, Xva, ytr, yva)).
    { apply (f_equal fst) in H2, H2'. cbn in H2, H2'.
      unfold train_test_split in H2, H2'. rewrite bool_decide_eq_true_2 in H2, H2' by done.
      rewrite Hval2 in H2, H2'. cbn in H2, H2'.
      destruct (permutation (seeded seed) (length Xtv)). cbn in H2, H2'. congruence. }
    simplify_eq. by rewrite H2'. }
  assert (Hzip : zip Xtr ytr ++ zip Xva yva ++ zip Xte yte ≡ₚ zip images labels).
  { by rewrite app_assoc, Hp2, Hp1. }
  assert (Hfst : Xtr ++ Xva ++ Xte ≡ₚ images).
  { rewrite <- (fst_zip images labels) by lia. rewrite <- Hzip, !fmap_app.
    rewrite !fst_zip by lia. done. }
  exists (DatasetSplit Xtr ytr Xva yva Xte yte).
  cbn [X_train X_val X_test y_train y_val y_test]. split_and!.
  - apply Hany.
  - unfold partitions. cbn [X_train X_val X_test y_train y_val y_test].
    split_and!; [done|done|lia..].
  - subst n_tv. lia.
  - lia.
  - lia.
  - unfold about_a_tenth. lia.
  - unfold about_a_tenth. subst n_tv. lia.
  - intros Hnd. by rewrite Hfst.
  - intros g. by rewrite Hany.
Qed.
End SplitFacts.

(** C5 as stated fails for fewer than three examples: the 1/9 call is left
    with one example for two parts and [train_test_split] raises
    ValueError instead of returning an empty part; with one example, or
    none, the 1/10 call raises already. *)
Lemma split_raises_on_two_examples :
  split (λ _, ()) reversing_permutation ()
        [CStr "a.jpg"; CStr "b.jpg"] [[CNum 1%float]; [CNum 0%float]] 42
    = (Raise (ValueError "the resulting train set will be empty"), ())
  ∧ split (λ _, ()) reversing_permutation ()
          [CStr "a.jpg"] [[CNum 1%float]] 42
    = (Raise (ValueError "the resulting train set will be empty"), ())
  ∧ split (λ _, ()) reversing_permutation () (@nil cell) (@nil (list cell)) 42
    = (Raise (ValueError "the resulting train set will be empty"), ()).
Proof. done. Qed.

(** Ten examples under the reversing generator: eight, one and one. *)
Lemma split_partitions_witness :
  ∃ s, split (λ _, ()) reversing_permutation () (seq 0 10) (seq 100 10) 42 = (Ok s, ())
       ∧ partitions (seq 0 10) (seq 100 10) s
       ∧ length (X_train s) = 8 ∧ length (X_val s) = 1 ∧ length (X_test s) = 1.
Proof.
  destruct (split_partitions (λ _, ()) reversing_permutation
              (λ rng n, reverse_Permutation (seq 0 n)) () (seq 0 10) (seq 100 10) 42)
    as (s & Hs & Hpart & Hsum & Hte & Hva & _); [done|simpl; lia|].
  exists s. split_and!; [done|done| |done|done].
  change (ceil_div _ 10) with 1 in Hte. change (ceil_div _ 9) with 1 in Hva.
  simpl in Hsum. lia.
Defined.

(** C10: the EfficientNet-B0 notebook keeps the first five rows of the
    annotations, so it loads at most five examples and, whenever its split
    succeeds, the three parts together hold at most five examples. *)
Theorem efficientnet_at_most_five_examples {RandomState Img}
    (seeded : Z → RandomState)
    (permutation : RandomState → nat → list nat * RandomState)
    (str_to_float : string → option float)
    (open_image : cell → result Img)
    (global : RandomState) (df : list (list cell)) (seed : Z)
    (s : dataset_split Img (list cell)) :
  (load_and_split seeded permutation str_to_float open_image
     efficientnet_b0 global df seed).1
    = Ok s →
  head efficientnet_b0 df = take 5 df
  ∧ length (load_examples str_to_float efficientnet_b0 df) ≤ 5
  ∧ length (X_train s) + length (X_val s) + length (X_test s) ≤ 5
  ∧ length (y_train s) + length (y_val s) + length (y_test s) ≤ 5.
Proof.
  intros Hs. unfold load_and_split, load_images in Hs.
  destruct (mapM open_image _) as [images|e] eqn:Himg; [|done].
  apply result_mapM_Ok, Forall2_length in Himg. rewrite length_fmap in Himg.
  apply split_Ok_lengths in Hs. rewrite <- Himg in Hs.
  assert (length (load_examples str_to_float efficientnet_b0 df) ≤ 5) as Hfive.
  { unfold load_examples, clean, dropna, head. cbn.
    rewrite length_fmap.
    etrans; [apply filter_length_le|]. rewrite length_fmap, length_take. lia. }
  split_and!; [done|done|lia..].
Qed.

(** Seven annotation rows under the reversing generator: five are read,
    and the parts hold three, one and one of them. *)
Lemma efficientnet_at_most_five_examples_witness :
  ∃ s, (load_and_split (λ _, ()) reversing_permutation flag_parser image_store
          efficientnet_b0 () (replicate 7 good_row) 42).1 = Ok s
       ∧ length (X_train s) + length (X_val s) + length (X_test s) ≤ 5
       ∧ length (X_train s) = 3 ∧ length (X_val s) = 1 ∧ length (X_test s) = 1.
Proof.
  eexists. split; [reflexivity|].
  split; [|done].
  eapply (efficientnet_at_most_five_examples (λ _, ()) reversing_permutation
            flag_parser image_store () (replicate 7 good_row) 42).
  reflexivity.
Defined.

(* ===================================================================== *)
(** * Part III: further properties of the notebooks' cells                 *)
(* ===================================================================== *)

(** ** Selection *)

(** What a successful selection returns. *)
Lemma select_best_Ok results best :
  select_best results = Ok best →
  ∃ i, results !! i = Some best
       ∧ is_nan (final_test_ham_acc best) = false
       ∧ ∀ j r, results !! j = Some r → is_nan (final_test_ham_acc r) = false →
           (final_test_ham_acc r <=? final_test_ham_acc best)%float = true
           ∧ (j < i → (final_test_ham_acc r <? final_test_ham_acc best)%float = true).
Proof.
  intros Hsel. assert (results ≠ []) as Hne by by intros ->.
  rewrite select_best_nonempty in Hsel by done. revert Hsel.
  destruct (idxmax (final_test_ham_acc <$> results)) as [i|] eqn:Hidx; [|done].
  apply idxmax_Some in Hidx as (v & Hv & Hnan & Hmax).
  rewrite list_lookup_fmap in Hv.
  destruct (results !! i) as [r0|] eqn:Hi; [|done]. simplify_eq/=.
  intros [= ->]. exists i. split_and!; [done..|].
  intros j r Hj Hr. apply Hmax; [|done]. by rewrite list_lookup_fmap, Hj.
Qed.

(** A selection that returns proves a defined row; one over a table with a
    defined row returns. *)
Lemma select_best_Ok_defined results best :
  select_best results = Ok best → has_defined results.
Proof.
  intros (i & Hi & Hnan & _)%select_best_Ok.
  exists best. split; [by eapply list_elem_of_lookup_2|done].
Qed.

Lemma select_best_Raise_undefined results e :
  select_best results = Raise e → ¬ has_defined results.
Proof. intros Hr (i & best & Hsel & _)%select_best_max. by rewrite Hsel in Hr. Qed.

(** The best-row cell raises exactly when no row has a defined Hamming
    accuracy: on an empty table and on a table of failed trials only. *)
Theorem select_best_raises_iff_nothing_defined (results : list run_result) :
  is_raise (select_best results) = true ↔ ¬ has_defined results.
Proof.
  destruct (select_best results) as [best|e] eqn:Hsel; cbn.
  - split; [done|]. intros Hnone. destruct Hnone. by eapply select_best_Ok_defined.
  - split; [|done]. intros _. by eapply select_best_Raise_undefined.
Qed.

(** Among rows that share the largest Hamming accuracy the one appended
    first wins: every defined row before the selected one is strictly
    worse. *)
Theorem select_best_earliest_maximum (results : list run_result) (best : run_result) :
  select_best results = Ok best →
  ∃ i, results !! i = Some best
       ∧ ∀ j r, j < i → results !! j = Some r →
           is_nan (final_test_ham_acc r) = false →
           (final_test_ham_acc r <? final_test_ham_acc best)%float = true.
Proof.
  intros (i & Hi & _ & Hmax)%select_best_Ok. exists i. split; [done|].
  intros j r Hlt Hj Hr. by apply (Hmax j r).
Qed.

(** Two trials tie at 0.9: the earlier one, with batch size 16, is kept. *)
Lemma select_best_earliest_maximum_witness :
  ∃ i, [success_row point_b16 0.4 0.9 (PyFloat 0.1);
        success_row point_b32 0.3 0.9 (PyFloat 0.2)] !! i
         = Some (success_row point_b16 0.4 0.9 (PyFloat 0.1))
       ∧ ∀ j r, j < i →
           [success_row point_b16 0.4 0.9 (PyFloat 0.1);
            success_row point_b32 0.3 0.9 (PyFloat 0.2)] !! j
             = Some r →
           is_nan (final_test_ham_acc r) = false →
           (final_test_ham_acc r <? 0.9)%float = true.
Proof.
  apply (select_best_earliest_maximum
           [success_row point_b16 0.4 0.9 (PyFloat 0.1);
            success_row point_b32 0.3 0.9 (PyFloat 0.2)]
           (success_row point_b16 0.4 0.9 (PyFloat 0.1))).
  reflexivity.
Defined.

(** ** What a trial records *)

(** The row of a trial that returned holds the entries of the last epoch
    of the three lists, whatever the earlier epochs were; when [train]
    returns with one of the lists empty, the [IndexError] of [[-1]] is
    caught like any failure and the NaN row is recorded. *)
Theorem record_trial_last_epoch (p : point) :
  (∀ losses loss hams ham zos zo,
     record_trial p (Ok (TrainResults (losses ++ [loss]) (hams ++ [ham]) (zos ++ [zo])))
       = success_row p loss ham zo)
  ∧ (∀ tr, test_loss tr = [] ∨ test_ham_acc tr = [] ∨ test_zero_one_acc tr = [] →
           record_trial p (Ok tr) = nan_row p).
Proof.
  split.
  - intros. unfold record_trial, try_body, py_last. cbn.
    by rewrite !last_snoc.
  - intros [l1 l2 l3] H. unfold record_trial, try_body, py_last. cbn in *.
    destruct (last l1) eqn:H1; cbn; [|done].
    destruct (last l2) eqn:H2; cbn; [|done].
    destruct (last l3) eqn:H3; cbn; [|done].
    destruct H as [->| [->| ->]]; done.
Qed.

(** ** From the sweep to the retrain loader *)

Section LoopLoader.
Context {World : Type} (train : World → point → World * result train_results).

(** After the loop [train_dataloader] is the loader of the last point. *)
Lemma sweep_loop_loader ps w acc loader :
  (sweep_loop train ps w acc loader).2
  = match last ps with Some p => Some (trial_loader p) | None => loader end.
Proof.
  revert w acc loader. induction ps as [|p ps IH]; intros w acc loader; [done|].
  cbn [sweep_loop]. unfold run_trial. destruct (train w p) as [w' a].
  rewrite IH, last_cons. by destruct (last ps).
Qed.

Lemma sweep_loop_results ps w :
  (sweep_loop train ps w [] None).1.2 = (sweep_over train ps w).2.
Proof. done. Qed.

(** A row of the table belongs to a point of the list swept. *)
Lemma elem_of_sweep_over ps w r :
  r ∈ (sweep_over train ps w).2 → ∃ p, p ∈ ps ∧ row_point r = point_key p.
Proof.
  rewrite sweep_over_rows. intros [i Hi]%list_elem_of_lookup.
  rewrite lookup_zip_with in Hi.
  destruct (ps !! i) as [p|] eqn:Hp; [|done]. cbn in Hi.
  destruct (trial_answers train ps w !! i) as [a|]; [|done]. cbn in Hi.
  injection Hi as <-. exists p. split; [by eapply list_elem_of_lookup_2|].
  apply row_point_record_trial.
Qed.
End LoopLoader.

Lemma elem_of_grid nb p :
  p ∈ grid nb ↔
    pt_transform p ∈ grid_transforms nb ∧ pt_batch_size p ∈ batch_size
    ∧ pt_epoch p ∈ num_epochs ∧ pt_lr p ∈ lrs.
Proof.
  unfold grid, enumerate_grid. rewrite list_elem_of_fmap.
  setoid_rewrite list_elem_of_bind. setoid_rewrite list_elem_of_bind.
  setoid_rewrite list_elem_of_singleton. split.
  - intros ([t [[b e] l]] & -> & t' & (c & [= <- <-] & Hc) & Ht).
    apply elem_of_product3 in Hc. naive_solver.
  - intros (Ht & Hb & He & Hl). destruct p as [t b e l].
    cbn [pt_transform pt_batch_size pt_epoch pt_lr] in *.
    exists (t, (b, e, l)). split; [done|]. exists t. split; [|done].
    exists (b, e, l). split; [done|]. by apply elem_of_product3.
Qed.

Lemma best_params_transform r : best_params r !! "transform" = Some (PStr (transform r)).
Proof. done. Qed.

Lemma best_params_batch_size r :
  best_params r !! "batch_size" = Some (PInt (rr_batch_size r)).
Proof. done. Qed.

(** The retrain loader of a notebook with the guard, on a best row with a
    positive batch size. *)
Lemma retrain_loader_best_params float_repr nb baseline_name r loop_loader :
  nb_retrain_baseline nb = Some baseline_name →
  (0 < rr_batch_size r)%Z →
  retrain_loader float_repr nb (best_params r) loop_loader
  = if bool_decide (transform r = "triv_aug")
    then Ok (DataLoader TrivialAugment (rr_batch_size r) true)
    else if bool_decide (transform r = baseline_name)
    then Ok (DataLoader Baseline (rr_batch_size r) true)
    else Raise (ValueError ("Unknown transform: " +:+ transform r)).
Proof.
  intros Hnb Hb. unfold retrain_loader, getitem, choose_pipeline, new_loader.
  rewrite Hnb, best_params_transform, best_params_batch_size. cbn.
  repeat case_bool_decide; cbn; try done.
  all: by rewrite bool_decide_eq_true_2.
Qed.

(** ** The cell that saves the table *)

Lemma item_row_Ok r r' :
  item_row r = Ok r' ↔
    ∃ f, final_test_zero_one_acc r = TensorScalar f ∧ r' = set_zero_one r (PyFloat f).
Proof.
  unfold item_row. destruct (final_test_zero_one_acc r) as [f|f]; cbn.
  - split; [intros [= <-]; by exists f|by intros (f' & [= <-] & ->)].
  - split; [done|by intros (f' & [=] & _)].
Qed.

Lemma item_row_Raise r e :
  item_row r = Raise e ↔
    (∃ f, final_test_zero_one_acc r = PyFloat f)
    ∧ e = AttributeError "'float' object has no attribute 'item'".
Proof.
  unfold item_row. destruct (final_test_zero_one_acc r) as [f|f]; cbn.
  - split; [done|by intros [(f' & [=]) _]].
  - split; [intros [= <-]; eauto|by intros [_ ->]].
Qed.

(** The conversion goes through on a table with a row, all of whose cells
    are tensors. *)
Lemma zero_one_items_Ok results results_df :
  zero_one_items results = Ok results_df ↔
    results ≠ [] ∧ Forall2 (λ r r', item_row r = Ok r') results results_df.
Proof.
  unfold zero_one_items. destruct results as [|r results]; [naive_solver|].
  rewrite result_mapM_Ok. naive_solver.
Qed.

(** Whatever row stops it, the error is the same. *)
Lemma zero_one_items_Raise results e :
  results ≠ [] → zero_one_items results = Raise e →
  e = AttributeError "'float' object has no attribute 'item'".
Proof.
  intros Hne. unfold zero_one_items. destruct results as [|r0 results0]; [done|].
  clear Hne. generalize (r0 :: results0). clear r0 results0.
  intros results. induction results as [|r results IH]; [done|].
  change (mapM item_row (r :: results))
    with (y ← item_row r; k ← mapM item_row results; mret (y :: k)).
  destruct (item_row r) as [r'|e'] eqn:Hr.
  - rewrite result_bind_Ok. destruct (mapM item_row results); [done|].
    rewrite result_bind_Raise. intros [= <-]. by apply IH.
  - rewrite result_bind_Raise. intros [= <-]. by apply item_row_Raise in Hr as [_ ->].
Qed.

(** It raises exactly on an empty table and on a table with a cell that is
    a float. *)
Lemma zero_one_items_is_raise results :
  is_raise (zero_one_items results) = true ↔
    results = [] ∨ ∃ r f, r ∈ results ∧ final_test_zero_one_acc r = PyFloat f.
Proof.
  split.
  - intros Hraise. destruct results as [|r0 results0]; [by left|right].
    set (results := r0 :: results0) in *.
    destruct (decide (Forall (λ r, is_raise (item_row r) = false) results))
      as [Hall|Hnot].
    + apply result_mapM_is_Ok in Hall as [k Hk].
      unfold zero_one_items in Hraise. subst results. by rewrite Hk in Hraise.
    + apply not_Forall_Exists in Hnot; [|apply _].
      apply Exists_exists in Hnot as (r & Hr & Hbad). exists r.
      unfold compose in Hbad.
      destruct (item_row r) as [|e] eqn:He; [done|].
      apply item_row_Raise in He as [[f Hf] _]. by exists f.
  - intros [->|(r & f & Hr & Hf)]; [done|].
    destruct (zero_one_items results) as [results_df|] eqn:Hok; [|done].
    apply zero_one_items_Ok in Hok as [_ Hok].
    apply list_elem_of_lookup in Hr as [i Hi].
    destruct (Forall2_lookup_l _ _ _ _ _ Hok Hi) as (r' & _ & Hr').
    apply item_row_Ok in Hr' as (f' & Hf' & _). congruence.
Qed.

(** The conversion touches the zero-one column only. *)
Lemma zero_one_items_fields {A} (g : run_result → A) results results_df :
  (∀ r x, g (set_zero_one r x) = g r) →
  zero_one_items results = Ok results_df →
  g <$> results_df = g <$> results.
Proof.
  intros Hg [_ Hall]%zero_one_items_Ok.
  induction Hall as [|r r' results results_df Hr _ IH]; [done|].
  apply item_row_Ok in Hr as (f & _ & ->). cbn. by rewrite Hg, IH.
Qed.

Lemma has_defined_fmap results :
  has_defined results ↔
    ∃ v, v ∈ final_test_ham_acc <$> results ∧ is_nan v = false.
Proof.
  unfold has_defined. setoid_rewrite list_elem_of_fmap. naive_solver.
Qed.

Lemma zero_one_items_has_defined results results_df :
  zero_one_items results = Ok results_df →
  has_defined results_df ↔ has_defined results.
Proof.
  intros Hok. rewrite !has_defined_fmap.
  by rewrite (zero_one_items_fields final_test_ham_acc _ _ (λ _ _, eq_refl) Hok).
Qed.

(** ** The retrain after the sweep *)

Section TuneAndRebuild.
Context {World : Type} (train : World → point → World * result train_results).
Variable float_repr : float → string.

(** The cells after the sweep see its table and the loader of the last
    grid point; the best parameters read back are the ones written. *)
Lemma tune_and_rebuild_eq nb w fs :
  tune_and_rebuild train float_repr nb w fs
  = (results_df ← zero_one_items (sweep train nb w).2;
     best_row ← select_best results_df;
     loader ← retrain_loader float_repr nb (best_params best_row)
                (trial_loader <$> last (grid nb));
     mret (best_row, loader)).
Proof.
  unfold tune_and_rebuild, sweep, results_cell.
  assert ((sweep_loop train (grid nb) w [] None).2
          = trial_loader <$> last (grid nb)) as Hl.
  { rewrite sweep_loop_loader. by destruct (last (grid nb)). }
  pose proof (sweep_loop_results train (grid nb) w) as Hr.
  destruct (sweep_loop train (grid nb) w [] None) as [[w' results] loader].
  cbn [fst snd] in Hl, Hr. subst results loader.
  destruct (zero_one_items _) as [results_df|e]; [|done].
  rewrite !result_bind_Ok.
  destruct (select_best _) as [best|e]; [|done]. rewrite !result_bind_Ok.
  destruct (nb_retrain_baseline nb); [|done].
  unfold load_best_params, save_best_params. by rewrite load_persist_config.
Qed.

Lemma sweep_nonempty nb w : (sweep train nb w).2 ≠ [].
Proof.
  intros Hnil. apply (f_equal length) in Hnil.
  unfold sweep in Hnil. by rewrite length_sweep_over, length_grid in Hnil.
Qed.

(** The best row of the saved table is the row of a grid point: its
    transform is one of the two names the loop records and its batch size
    is positive. *)
Lemma winner_of_sweep nb w results_df best :
  zero_one_items (sweep train nb w).2 = Ok results_df →
  select_best results_df = Ok best →
  (∃ pipeline, (transform best, pipeline) ∈ grid_transforms nb)
  ∧ (0 < rr_batch_size best)%Z.
Proof.
  intros Hok (i & Hi & _)%select_best_Ok.
  pose proof (zero_one_items_fields row_point _ _ (λ _ _, eq_refl) Hok) as Hpts.
  apply (f_equal (λ l, l !! i)) in Hpts. rewrite !list_lookup_fmap, Hi in Hpts.
  destruct ((sweep train nb w).2 !! i) as [r|] eqn:Hr; [|done].
  apply list_elem_of_lookup_2, elem_of_sweep_over in Hr as (p & Hp & Hkey).
  cbn in Hpts. rewrite Hkey in Hpts. injection Hpts as Ht Hb _ _.
  apply elem_of_grid in Hp as (Htr & Hbs & _). split.
  - exists (pt_transform p).2. rewrite Ht. by destruct (pt_transform p).
  - rewrite Hb. unfold batch_size in Hbs. rewrite !elem_of_cons in Hbs.
    destruct Hbs as [->|[->|[->|Hbs%elem_of_nil]]]; done.
Qed.
End TuneAndRebuild.

Lemma last_grid nb : last (grid nb) = Some (Point (nb_grid_baseline nb, Baseline) 64 10 0.01).
Proof. done. Qed.

(** The EfficientNet-B0 notebook, which has no cell that rebuilds the
    loader, retrains on the loader of the last grid point - the baseline
    pipeline with batch size 64 - whichever row is the best one; it gets
    there exactly when the cell that saves the table converts the zero-one
    column and the best-row cell finds a row. *)
Theorem efficientnet_retrains_on_last_loader {World}
    (train : World → point → World * result train_results)
    (float_repr : float → string) (w : World) (fs : gmap string file)
    (best : run_result) (loader : data_loader) :
  tune_and_rebuild train float_repr efficientnet_b0 w fs = Ok (best, loader)
  ↔ (∃ results_df,
       zero_one_items (sweep train efficientnet_b0 w).2 = Ok results_df
       ∧ select_best results_df = Ok best)
    ∧ loader = DataLoader Baseline 64 true.
Proof.
  rewrite tune_and_rebuild_eq, last_grid.
  destruct (zero_one_items _) as [results_df|e];
    rewrite ?result_bind_Ok, ?result_bind_Raise;
    [|split; [done|by intros [(df & [=] & _) _]]].
  destruct (select_best results_df) as [best'|e] eqn:Hsel;
    rewrite ?result_bind_Ok, ?result_bind_Raise.
  - cbn. split.
    + intros [= <- <-]. split; [by exists results_df|done].
    + intros [(df & [= <-] & Hbest) ->].
      assert (best' = best) as -> by congruence. done.
  - split; [done|]. intros [(df & [= <-] & Hbest) _]. congruence.
Qed.

(** The ResNet-18 notebook retrains on the pipeline and the batch size of
    the trial that won.  It stops before the retrain exactly when a cell
    of the zero-one column is a float - the cell that saves the table
    raises on it, and the row of a failed trial holds one - or when no
    trial gave a defined Hamming accuracy: its guard never fires after its
    own sweep. *)
Theorem resnet_retrains_on_winning_loader {World}
    (train : World → point → World * result train_results)
    (float_repr : float → string) (w : World) (fs : gmap string file) :
  (∀ best loader,
     tune_and_rebuild train float_repr resnet18 w fs = Ok (best, loader)
     ↔ (∃ results_df,
          zero_one_items (sweep train resnet18 w).2 = Ok results_df
          ∧ select_best results_df = Ok best)
       ∧ ∃ pipeline, (transform best, pipeline) ∈ grid_transforms resnet18
                     ∧ loader = DataLoader pipeline (rr_batch_size best) true)
  ∧ (is_raise (tune_and_rebuild train float_repr resnet18 w fs) = true
     ↔ (∃ r f, r ∈ (sweep train resnet18 w).2
               ∧ final_test_zero_one_acc r = PyFloat f)
       ∨ ¬ has_defined (sweep train resnet18 w).2).
Proof.
  assert (Hwin : ∀ results_df best,
            zero_one_items (sweep train resnet18 w).2 = Ok results_df →
            select_best results_df = Ok best →
            ∃ pipeline,
              (transform best, pipeline) ∈ grid_transforms resnet18
              ∧ retrain_loader float_repr resnet18 (best_params best)
                  (trial_loader <$> last (grid resnet18))
                = Ok (DataLoader pipeline (rr_batch_size best) true)).
  { intros results_df best Hok Hsel.
    destruct (winner_of_sweep train resnet18 w results_df best Hok Hsel)
      as [[pipeline Hpl] Hb].
    exists pipeline. split; [done|].
    rewrite (retrain_loader_best_params _ resnet18 "res18_transform") by done.
    unfold grid_transforms in Hpl.
    change (nb_grid_baseline resnet18) with "res18_transform" in Hpl.
    rewrite !elem_of_cons in Hpl.
    destruct Hpl as [[= -> ->]|[[= -> ->]|Hpl%elem_of_nil]]; done. }
  assert (Hone : ∀ name pl1 pl2,
            (name, pl1) ∈ grid_transforms resnet18 →
            (name, pl2) ∈ grid_transforms resnet18 → pl1 = pl2).
  { intros name pl1 pl2. unfold grid_transforms.
    change (nb_grid_baseline resnet18) with "res18_transform".
    rewrite !elem_of_cons. intros [H1|[H1|H1%elem_of_nil]] [H2|[H2|H2%elem_of_nil]];
      try done; by simplify_eq. }
  rewrite tune_and_rebuild_eq. split.
  - intros best loader.
    destruct (zero_one_items _) as [results_df|e] eqn:Hok;
      rewrite ?result_bind_Ok, ?result_bind_Raise;
      [|split; [done|by intros [(df & [=] & _) _]]].
    destruct (select_best results_df) as [best'|e] eqn:Hsel;
      rewrite ?result_bind_Ok, ?result_bind_Raise;
      [|split; [done|intros [(df & [= <-] & Hbest) _]; congruence]].
    destruct (Hwin results_df best' eq_refl Hsel) as (pipeline & Hpl & ->).
    rewrite result_bind_Ok. split.
    + intros [= <- <-]. split; [by exists results_df|by exists pipeline].
    + intros [(df & [= <-] & Hbest) (pl & Hpl' & ->)].
      assert (best' = best) as -> by congruence.
      by rewrite (Hone _ _ _ Hpl Hpl').
  - pose proof (zero_one_items_is_raise (sweep train resnet18 w).2) as Hraise.
    pose proof (sweep_nonempty train resnet18 w) as Hne.
    destruct (zero_one_items _) as [results_df|e] eqn:Hok;
      rewrite ?result_bind_Ok, ?result_bind_Raise.
    + pose proof (zero_one_items_has_defined _ _ Hok) as Hdef.
      assert (¬ ∃ r f, r ∈ (sweep train resnet18 w).2
                       ∧ final_test_zero_one_acc r = PyFloat f) as Hnofloat.
      { intros H. by apply (λ H', proj2 Hraise (or_intror H')) in H. }
      destruct (select_best results_df) as [best'|e] eqn:Hsel;
        rewrite ?result_bind_Ok, ?result_bind_Raise.
      * destruct (Hwin results_df best' eq_refl Hsel) as (pipeline & _ & ->).
        apply select_best_Ok_defined in Hsel. cbn. split; [done|].
        intros [H|H]; [done|]. destruct H. by apply Hdef.
      * apply select_best_Raise_undefined in Hsel. cbn. split; [|done].
        intros _. right. by rewrite <- Hdef.
    + cbn. split; [|done]. intros _. left.
      destruct (proj1 Hraise eq_refl) as [Hnil|H]; done.
Qed.

(** The DenseNet201 notebook gets past its guard exactly when a
    trivial-augment trial wins; when a trial of its baseline pipeline wins,
    the run stops with "Unknown transform: d201_transform". *)
Theorem densenet_retrains_only_on_trivial_augment {World}
    (train : World → point → World * result train_results)
    (float_repr : float → string) (w : World) (fs : gmap string file)
    (results_df : list run_result) (best : run_result) :
  zero_one_items (sweep train densenet201 w).2 = Ok results_df →
  select_best results_df = Ok best →
  (transform best = "triv_aug"
   ∧ tune_and_rebuild train float_repr densenet201 w fs
     = Ok (best, DataLoader TrivialAugment (rr_batch_size best) true))
  ∨ (transform best = "d201_transform"
     ∧ tune_and_rebuild train float_repr densenet201 w fs
       = Raise (ValueError "Unknown transform: d201_transform")).
Proof.
  intros Hok Hsel.
  destruct (winner_of_sweep train densenet201 w results_df best Hok Hsel)
    as [[pipeline Hpl] Hb].
  rewrite tune_and_rebuild_eq, Hok, result_bind_Ok, Hsel, result_bind_Ok.
  rewrite (retrain_loader_best_params _ densenet201 "res18_transform") by done.
  unfold grid_transforms in Hpl.
  change (nb_grid_baseline densenet201) with "d201_transform" in Hpl.
  rewrite !elem_of_cons in Hpl.
  destruct Hpl as [[= Ht _]|[[= Ht _]|Hpl%elem_of_nil]]; [| |done];
    rewrite Ht; cbn; [by left|by right].
Qed.

(** A routine under which the baseline trials win, and one under which the
    trivial-augment trials win; both hand back tensors for the zero-one
    accuracies. *)
Lemma densenet_retrains_only_on_trivial_augment_witness :
  tune_and_rebuild (pipeline_train Baseline) (λ _, "") densenet201 () ∅
    = Raise (ValueError "Unknown transform: d201_transform")
  ∧ tune_and_rebuild (pipeline_train TrivialAugment) (λ _, "") densenet201 () ∅
    = Ok (RunResult "triv_aug" 16 5 0.001 0.4 0.9 (PyFloat 0.1),
          DataLoader TrivialAugment 16 true).
Proof.
  split.
  - destruct (densenet_retrains_only_on_trivial_augment (pipeline_train Baseline)
                (λ _, "") () ∅
                ((λ r, set_zero_one r (PyFloat (float_of (final_test_zero_one_acc r))))
                   <$> (sweep (pipeline_train Baseline) densenet201 ()).2)
                (RunResult "d201_transform" 16 5 0.001 0.4 0.9 (PyFloat 0.1)))
      as [[Ht _]|[_ H]]; [by vm_compute|by vm_compute|discriminate Ht|exact H].
  - destruct (densenet_retrains_only_on_trivial_augment (pipeline_train TrivialAugment)
                (λ _, "") () ∅
                ((λ r, set_zero_one r (PyFloat (float_of (final_test_zero_one_acc r))))
                   <$> (sweep (pipeline_train TrivialAugment) densenet201 ()).2)
                (RunResult "triv_aug" 16 5 0.001 0.4 0.9 (PyFloat 0.1)))
      as [[_ H]|[Ht _]]; [by vm_compute|by vm_compute|exact H|discriminate Ht].
Defined.

(** A trial that failed stops the notebook at the cell that saves the
    table: the cell finds the [float('nan')] of the trial's row in the
    zero-one column, raises [AttributeError] and writes no file, so the
    rows of the other trials never reach the best-row cell. *)
Theorem failed_trial_stops_results_cell {World}
    (train : World → point → World * result train_results)
    (float_repr : float → string) (nb : notebook) (w : World)
    (fs : gmap string file) (i : nat) (p : point) (e : exn) :
  grid nb !! i = Some p →
  trial_answers train (grid nb) w !! i = Some (Raise e) →
  results_cell nb (sweep train nb w).2 fs
    = (Raise (AttributeError "'float' object has no attribute 'item'"), fs)
  ∧ tune_and_rebuild train float_repr nb w fs
    = Raise (AttributeError "'float' object has no attribute 'item'").
Proof.
  intros Hp Ha.
  assert (zero_one_items (sweep train nb w).2
          = Raise (AttributeError "'float' object has no attribute 'item'")) as Hcell.
  { assert (is_raise (zero_one_items (sweep train nb w).2) = true) as Hraise.
    { apply zero_one_items_is_raise. right. exists (nan_row p), py_nan.
      split; [|done]. apply (list_elem_of_lookup_2 _ i). unfold sweep.
      destruct (sweep_over_lookup train (grid nb) w i p Hp) as (a & Ha' & ->).
      by simplify_eq. }
    destruct (zero_one_items _) as [|e'] eqn:He; [done|].
    by rewrite (zero_one_items_Raise _ e' (sweep_nonempty train nb w) He). }
  split.
  - unfold results_cell. by rewrite Hcell.
  - by rewrite tune_and_rebuild_eq, Hcell.
Qed.

(** The sweep of the ResNet-18 notebook with a routine that always
    raises. *)
Lemma failed_trial_stops_results_cell_witness :
  results_cell resnet18 (sweep failing_train resnet18 ()).2 ∅
    = (Raise (AttributeError "'float' object has no attribute 'item'"), ∅)
  ∧ tune_and_rebuild failing_train (λ _, "") resnet18 () ∅
    = Raise (AttributeError "'float' object has no attribute 'item'").
Proof.
  apply (failed_trial_stops_results_cell failing_train (λ _, "") resnet18 () ∅ 0
           (Point ("triv_aug", TrivialAugment) 16 5 0.001)
           (Exception "RuntimeError" "CUDA out of memory")); reflexivity.
Defined.

(** ** The order of the grid *)

Lemma lookup_bind_const {A B} (f : A → list B) (l : list A) (k i j : nat) x y :
  (∀ a, length (f a) = k) → l !! i = Some x → f x !! j = Some y →
  (l ≫= f) !! (i * k + j) = Some y.
Proof.
  intros Hk. revert i. induction l as [|a l IH]; intros i Hx Hy; [done|].
  rewrite bind_cons. destruct i as [|i]; simplify_eq/=.
  - by apply lookup_app_l_Some.
  - rewrite lookup_app_r by (rewrite Hk; lia).
    rewrite Hk. replace (k + i * k + j - k) with (i * k + j) by lia. by apply IH.
Qed.

Lemma product3_lookup {A B C} (xs : list A) (ys : list B) (zs : list C) i j m x y z :
  xs !! i = Some x → ys !! j = Some y → zs !! m = Some z →
  product3 xs ys zs !! ((i * length ys + j) * length zs + m) = Some (x, y, z).
Proof.
  intros Hx Hy Hz. unfold product3.
  replace ((i * length ys + j) * length zs + m)
    with (i * (length ys * length zs) + (j * length zs + m)) by lia.
  apply (lookup_bind_const _ xs _ i _ x); [|done|].
  { intros a. rewrite (length_bind_const _ ys (length zs)); [done|].
    intros b. rewrite (length_bind_const _ zs 1); [lia|done]. }
  apply (lookup_bind_const _ ys _ j _ y); [|done|].
  { intros b. rewrite (length_bind_const _ zs 1); [lia|done]. }
  replace m with (m * 1 + 0) by lia.
  by apply (lookup_bind_const _ zs 1 m 0 z).
Qed.

(** The run numbering of the sweep: transforms are the outermost loop, then
    batch sizes, then epoch counts, and the learning rate varies fastest;
    the combination of the choices at positions (ti, bi, ei, li) is trial
    number ((ti·|batch| + bi)·|epochs| + ei)·|lrs| + li. *)
Theorem enumerate_grid_lookup {T} (ts : list T) (bs es : list Z) (ls : list float)
    (ti bi ei li : nat) (t : T) (b e : Z) (l : float) :
  ts !! ti = Some t → bs !! bi = Some b → es !! ei = Some e → ls !! li = Some l →
  enumerate_grid ts bs es ls
    !! (((ti * length bs + bi) * length es + ei) * length ls + li)
  = Some (t, (b, e, l)).
Proof.
  intros Ht Hb He Hl. unfold enumerate_grid.
  pose proof (product3_lookup bs es ls bi ei li b e l Hb He Hl) as Hc.
  remember ((bi * length es + ei) * length ls + li) as c eqn:Hceq.
  replace (((ti * length bs + bi) * length es + ei) * length ls + li)
    with (ti * (length bs * length es * length ls) + c) by lia.
  apply (lookup_bind_const _ ts _ ti _ t); [|done|].
  { intros a. rewrite (length_bind_const _ _ 1); [|done].
    rewrite length_product3. lia. }
  replace c with (c * 1 + 0) by lia.
  by apply (lookup_bind_const _ _ 1 c 0 (b, e, l)).
Qed.

(** Trial 31 of the DenseNet201 sweep. *)
Lemma enumerate_grid_lookup_witness :
  enumerate_grid (grid_transforms densenet201) batch_size num_epochs lrs !! 31
  = Some (("d201_transform", Baseline), (64%Z, 5%Z, 0.0001%float)).
Proof.
  apply (enumerate_grid_lookup (grid_transforms densenet201) batch_size num_epochs lrs
           1 2 0 1); reflexivity.
Defined.

(** ** The examples loaded *)

Section ExampleFacts.
Variable str_to_float : string → option float.

Lemma coerce_labels_filename r : coerce_labels str_to_float r !! 0 = r !! 0.
Proof. by destruct r. Qed.

(** The examples are, in the order of the file (after [df[:k]] where the
    notebook has it), the rows that pass [dropna]; each keeps its
    [filename] cell as read and gets as labels the coerced values of its
    columns 1 to 15. *)
Theorem load_examples_in_file_order (nb : notebook) (df : list (list cell)) :
  load_examples str_to_float nb df
  = (λ r, Example (default (CNum py_nan) (r !! 0))
                  (to_numeric str_to_float <$> take 15 (drop 1 r)))
    <$> List.filter (λ r, complete (coerce_labels str_to_float r)) (head nb df).
Proof.
  unfold load_examples, clean, dropna.
  rewrite filter_fmap_swap, <- list_fmap_compose.
  apply list_fmap_ext. intros i r _. unfold to_example. cbn.
  by rewrite coerce_labels_filename, labels_coerce_labels.
Qed.

(** Because [dropna] also looks at the [filename] column, no example that
    is kept has a missing file name: the path of an image is never built
    from NaN. *)
Theorem loaded_filenames_present (nb : notebook) (df : list (list cell)) :
  Forall (λ r, r ≠ []) df →
  Forall (λ ex, isna (ex_filename ex) = false) (load_examples str_to_float nb df).
Proof.
  intros Hrows. apply Forall_forall. intros ex.
  unfold load_examples. rewrite list_elem_of_fmap.
  intros (r' & -> & (r & Hr & -> & Hkeep)%elem_of_clean). cbn.
  rewrite coerce_labels_filename.
  apply head_subseteq in Hr. rewrite Forall_forall in Hrows. apply Hrows in Hr.
  destruct r as [|c r]; [done|]. cbn.
  destruct (isna c) eqn:Hc; [|done].
  assert (complete (coerce_labels str_to_float (c :: r)) = false); [|congruence].
  apply incomplete_iff. right. by exists c.
Qed.
End ExampleFacts.

Lemma loaded_filenames_present_witness :
  Forall (λ ex, isna (ex_filename ex) = false)
         (load_examples flag_parser densenet201
            [good_row; blank_filename_row; bad_flag_row]).
Proof.
  apply loaded_filenames_present. by repeat constructor.
Defined.

(** ** The files written *)

(** The JSON files of the three notebooks have six different names, none of
    them the name of a results table: saving the best parameters of another
    notebook, any results table (whether the cell that saves it writes or
    raises) or any test results leaves the best parameters of a notebook
    readable as they were, and the test results read back are the three
    metrics as Python floats. *)
Theorem json_artifacts_do_not_collide (nb1 nb2 : notebook) :
  nb1 ∈ notebooks → nb2 ∈ notebooks →
  (nb1 ≠ nb2 → ∀ best_row fs,
     load_best_params nb1 (save_best_params nb2 best_row fs) = load_best_params nb1 fs)
  ∧ (∀ rows fs,
       load_best_params nb1 (persist_results nb2 rows fs) = load_best_params nb1 fs)
  ∧ (∀ rows fs,
       load_best_params nb1 (results_cell nb2 rows fs).2 = load_best_params nb1 fs)
  ∧ (∀ out fs,
       load_best_params nb1 (save_test_results nb2 out fs) = load_best_params nb1 fs)
  ∧ (∀ loss ham zo fs,
       load_config (nb_test_results_json nb1) (save_test_results nb1 (loss, ham, zo) fs)
       = Ok (test_results (item_if_tensor loss) (item_if_tensor ham) (item_if_tensor zo))).
Proof.
  unfold notebooks. rewrite !elem_of_cons.
  intros [->|[->|[->|H1%elem_of_nil]]] [->|[->|[->|H2%elem_of_nil]]]; try done.
  all: split_and!;
    [ intros Hne best_row fs | intros rows fs
    | intros rows fs; unfold results_cell; destruct (zero_one_items rows); [|done]
    | intros [[l h] z] fs
    | intros; apply load_persist_config ].
  all: try congruence.
  all: unfold load_best_params, save_best_params, persist_results,
         save_test_results, persist_config, load_config; cbn;
       by rewrite lookup_insert_ne.
Qed.

Lemma json_artifacts_do_not_collide_witness :
  load_best_params resnet18
    (save_best_params efficientnet_b0 (nan_row point_b16)
       (save_best_params resnet18 (nan_row point_b32) ∅))
  = load_best_params resnet18 (save_best_params resnet18 (nan_row point_b32) ∅).
Proof.
  apply (json_artifacts_do_not_collide resnet18 efficientnet_b0);
    [set_solver|set_solver|done].
Defined.

(** ** The sizes of the three parts *)

Section SplitSizes.
Context {RandomState : Type} (seeded : Z → RandomState).
Context (permutation : RandomState → nat → list nat * RandomState).
Hypothesis permutation_spec : ∀ rng n, (permutation rng n).1 ≡ₚ seq 0 n.
Context {A B : Type}.

(** The two seeded calls on at least three parallel examples. *)
Lemma split_seeded global (images : list A) (labels : list B) (seed : Z) :
  length images = length labels →
  3 ≤ length images →
  ∃ s,
    split seeded permutation global images labels seed = (Ok s, global)
    ∧ zip (X_train s) (y_train s) ++ zip (X_val s) (y_val s)
        ++ zip (X_test s) (y_test s) ≡ₚ zip images labels
    ∧ length (X_test s) = ceil_div (length images) 10
    ∧ length (X_val s) = ceil_div (length images - ceil_div (length images) 10) 9
    ∧ length (X_train s) + length (X_val s) + length (X_test s) = length images
    ∧ length (y_train s) = length (X_train s)
    ∧ length (y_val s) = length (X_val s)
    ∧ length (y_test s) = length (X_test s).
Proof.
  intros Hlen HN.
  pose proof (ceil_div_spec (length images) 10) as Hc10.
  pose proof (ceil_div_spec (length images - ceil_div (length images) 10) 9) as Hc9.
  set (n_test := ceil_div (length images) 10) in *.
  set (n_tv := length images - n_test) in *.
  set (n_val := ceil_div n_tv 9) in *.
  destruct (train_test_split_seeded seeded permutation permutation_spec global
              images labels 10 seed n_tv n_test Hlen)
    as (Xtv & Xte & ytv & yte & H1 & Hp1 & HlXtv & Hlytv & HlXte & Hlyte).
  { apply validate_shuffle_split_Ok. subst n_tv. lia. }
  destruct (train_test_split_seeded seeded permutation permutation_spec global
              Xtv ytv 9 seed (n_tv - n_val) n_val)
    as (Xtr & Xva & ytr & yva & H2 & Hp2 & HlXtr & Hlytr & HlXva & Hlyva); [lia| |].
  { apply validate_shuffle_split_Ok. rewrite HlXtv. subst n_val n_tv. lia. }
  exists (DatasetSplit Xtr ytr Xva yva Xte yte).
  cbn [X_train X_val X_test y_train y_val y_test]. split_and!; try lia.
  - unfold split. by rewrite H1, H2.
  - by rewrite app_assoc, Hp2, Hp1.
Qed.

(** With fewer than three examples one of the two calls finds its training
    part empty. *)
Lemma split_too_small global (images : list A) (labels : list B) (seed : Z) :
  length images = length labels →
  length images < 3 →
  (split seeded permutation global images labels seed).1
  = Raise (ValueError "the resulting train set will be empty").
Proof.
  intros Hlen HN. unfold split.
  destruct (decide (length images = 2)) as [H2|Hne].
  - destruct (train_test_split_seeded seeded permutation permutation_spec global
                images labels 10 seed 1 1 Hlen)
      as (Xtv & Xte & ytv & yte & H1 & _ & HlXtv & Hlytv & _); [by rewrite H2|].
    rewrite H1. unfold train_test_split.
    rewrite bool_decide_eq_true_2 by lia. by rewrite HlXtv.
  - unfold train_test_split. rewrite bool_decide_eq_true_2 by done.
    destruct (length images) as [|[|[|n]]]; [done|done|done|lia].
Qed.

(** A split that succeeds leaves none of the three parts empty, and its
    training part holds four fifths of the examples up to two: the split
    never returns an empty validation or test part, it raises instead. *)
Theorem split_parts_nonempty global (images : list A) (labels : list B) (seed : Z) :
  length images = length labels →
  3 ≤ length images →
  ∃ s,
    split seeded permutation global images labels seed = (Ok s, global)
    ∧ 1 ≤ length (X_train s) ∧ 1 ≤ length (X_val s) ∧ 1 ≤ length (X_test s)
    ∧ 8 * length images < 10 * length (X_train s) + 20
    ∧ 10 * length (X_train s) ≤ 8 * length images.
Proof.
  intros Hlen HN.
  destruct (split_seeded global images labels seed Hlen HN)
    as (s & Hs & _ & Hte & Hva & Hsum & _).
  pose proof (ceil_div_spec (length images) 10) as Hc10.
  pose proof (ceil_div_spec (length images - ceil_div (length images) 10) 9) as Hc9.
  exists s. split; [done|]. lia.
Qed.

End SplitSizes.

Section LoadAndSplit.
Context {RandomState Img : Type} (seeded : Z → RandomState).
Context (permutation : RandomState → nat → list nat * RandomState).
Hypothesis permutation_spec : ∀ rng n, (permutation rng n).1 ≡ₚ seq 0 n.

(** The loading cell of a notebook returns the three parts exactly when
    every image of a record that survives the cleaning can be opened and
    at least three records survive.  Otherwise it raises: what the first
    image that cannot be opened raises, or, the images being there, the
    [ValueError] of an empty training part. *)
Theorem load_and_split_needs_three_examples (str_to_float : string → option float)
    (open_image : cell → result Img)
    (nb : notebook) (global : RandomState) (df : list (list cell)) (seed : Z) :
  let examples := load_examples str_to_float nb df in
  let opens ex := is_raise (open_image (ex_filename ex)) = false in
  let run := load_and_split seeded permutation str_to_float open_image
               nb global df seed in
  ((∃ s, run.1 = Ok s) ↔ Forall opens examples ∧ 3 ≤ length examples)
  ∧ (Forall opens examples → length examples < 3 →
     run.1 = Raise (ValueError "the resulting train set will be empty"))
  ∧ (∀ i ex e,
       examples !! i = Some ex → open_image (ex_filename ex) = Raise e →
       (∀ j ex', j < i → examples !! j = Some ex' → opens ex') →
       run = (Raise e, global)).
Proof.
  intros examples opens run. subst run. unfold load_and_split, load_images.
  fold examples.
  assert (Hopen : Forall opens examples →
            ∃ images, mapM open_image (ex_filename <$> examples) = Ok images
                      ∧ length images = length examples).
  { intros Hall.
    destruct (result_mapM_is_Ok open_image (ex_filename <$> examples))
      as [images Himg]; [by apply Forall_fmap|].
    exists images. split; [done|].
    apply result_mapM_Ok, Forall2_length in Himg. by rewrite length_fmap in Himg. }
  assert (Hfirst : ∀ i ex e,
            examples !! i = Some ex → open_image (ex_filename ex) = Raise e →
            (∀ j ex', j < i → examples !! j = Some ex' → opens ex') →
            mapM open_image (ex_filename <$> examples) = Raise e).
  { intros i ex e Hex He Hbefore.
    apply (result_mapM_Raise _ _ i (ex_filename ex)); [|done|].
    - by rewrite list_lookup_fmap, Hex.
    - intros j c Hj. rewrite list_lookup_fmap.
      destruct (examples !! j) as [ex'|] eqn:Hex'; [|done].
      intros [= <-]. by apply (Hbefore j). }
  split_and!.
  - split.
    + intros [s Hs].
      destruct (mapM open_image _) as [images|e] eqn:Himg; [|done].
      apply result_mapM_Ok in Himg as Hall.
      pose proof (Forall2_length _ _ _ Hall) as Hlen. rewrite length_fmap in Hlen.
      split.
      * apply Forall_forall. intros ex [i Hi]%list_elem_of_lookup.
        destruct (Forall2_lookup_l _ _ _ i (ex_filename ex) Hall)
          as (image & _ & Himage); [by rewrite list_lookup_fmap, Hi|].
        unfold opens. by rewrite Himage.
      * destruct (decide (3 ≤ length examples)) as [|Hlt]; [done|].
        rewrite (split_too_small seeded permutation permutation_spec) in Hs;
          [done|by rewrite length_fmap|lia].
    + intros [Hall HN]. destruct (Hopen Hall) as (images & -> & Hlen).
      destruct (split_seeded seeded permutation permutation_spec global
                  images (ex_labels <$> examples) seed)
        as (s & Hs & _); [by rewrite length_fmap|lia|].
      exists s. by rewrite Hs.
  - intros Hall HN. destruct (Hopen Hall) as (images & -> & Hlen).
    apply split_too_small; [done|by rewrite length_fmap|lia].
  - intros i ex e Hex He Hbefore. by rewrite (Hfirst i ex e).
Qed.
End LoadAndSplit.

(** Thirty-five examples under the reversing generator. *)
Lemma split_parts_nonempty_witness :
  ∃ s, split (λ _, ()) reversing_permutation () (seq 0 35) (seq 100 35) 42 = (Ok s, ())
       ∧ 1 ≤ length (X_train s) ∧ 1 ≤ length (X_val s) ∧ 1 ≤ length (X_test s)
       ∧ 8 * 35 < 10 * length (X_train s) + 20
       ∧ 10 * length (X_train s) ≤ 8 * 35.
Proof.
  apply (split_parts_nonempty (λ _, ()) reversing_permutation
           (λ rng n, reverse_Permutation (seq 0 n)) () (seq 0 35) (seq 100 35) 42);
    [done|simpl; lia].
Defined.

(** Three clean rows whose images are there are enough; two are not; and a
    missing image stops the cell whatever the number of rows. *)
Lemma load_and_split_needs_three_examples_witness :
  (∃ s, (load_and_split (λ _, ()) reversing_permutation flag_parser image_store
           densenet201 () (replicate 3 good_row) 42).1 = Ok s)
  ∧ (load_and_split (λ _, ()) reversing_permutation flag_parser image_store
       densenet201 () [good_row; blank_filename_row; good_row; bad_flag_row] 42).1
    = Raise (ValueError "the resulting train set will be empty")
  ∧ load_and_split (λ _, ()) reversing_permutation flag_parser image_store
      densenet201 () (good_row :: missing_image_row :: replicate 3 good_row) 42
    = (Raise (FileNotFoundError "missing.jpg"), ()).
Proof.
  split_and!.
  - destruct (load_and_split_needs_three_examples (λ _, ()) reversing_permutation
                (λ rng n, reverse_Permutation (seq 0 n)) flag_parser image_store
                densenet201 () (replicate 3 good_row) 42) as (Hiff & _ & _).
    apply Hiff. split; [by repeat constructor|by vm_compute].
  - destruct (load_and_split_needs_three_examples (λ _, ()) reversing_permutation
                (λ rng n, reverse_Permutation (seq 0 n)) flag_parser image_store
                densenet201 ()
                [good_row; blank_filename_row; good_row; bad_flag_row] 42)
      as (_ & Hsmall & _).
    apply Hsmall.
    + by repeat constructor.
    + vm_compute. lia.
  - destruct (load_and_split_needs_three_examples (λ _, ()) reversing_permutation
                (λ rng n, reverse_Permutation (seq 0 n)) flag_parser image_store
                densenet201 ()
                (good_row :: missing_image_row :: replicate 3 good_row) 42)
      as (_ & _ & Hfirst).
    apply (Hfirst 1 (Example (CStr "missing.jpg") (replicate 15 (CNum 0%float)))).
    + reflexivity.
    + reflexivity.
    + intros [|j] ex' Hj Hex'; [|lia]. by injection Hex' as <-.
Defined.

(** ** Datasets and loaders *)

Lemma py_index_nat {A} (l : list A) (i : nat) (x : A) :
  l !! i = Some x →
  py_index l (Z.of_nat i) = Ok x
  ∧ py_index l (Z.of_nat i - Z.of_nat (length l)) = Ok x.
Proof.
  intros Hx. pose proof (lookup_lt_Some _ _ _ Hx) as Hlt. unfold py_index. split.
  - rewrite (bool_decide_eq_false_2 (Z.of_nat i < 0)%Z) by lia.
    rewrite bool_decide_eq_true_2 by lia.
    by rewrite Nat2Z.id, Hx.
  - rewrite (bool_decide_eq_true_2 (Z.of_nat i - Z.of_nat (length l) < 0)%Z) by lia.
    replace (Z.of_nat i - Z.of_nat (length l) + Z.of_nat (length l))%Z
      with (Z.of_nat i) by lia.
    rewrite bool_decide_eq_true_2 by lia.
    by rewrite Nat2Z.id, Hx.
Qed.

Lemma py_index_out_of_range {A} (l : list A) (idx : Z) :
  (idx < - Z.of_nat (length l) ∨ Z.of_nat (length l) ≤ idx)%Z →
  py_index l idx = Raise (IndexError "list index out of range").
Proof.
  intros Hout. unfold py_index.
  destruct (bool_decide (idx < 0)%Z) eqn:Hneg.
  - apply bool_decide_eq_true_1 in Hneg. by rewrite bool_decide_eq_false_2 by lia.
  - apply bool_decide_eq_false_1 in Hneg. by rewrite bool_decide_eq_false_2 by lia.
Qed.

Section DatasetFacts.
Context {Img Lab Tens : Type} (as_tensor : Lab → Tens).
Implicit Types ds : custom_image_dataset Img Lab.

Lemma ds_getitem_nat ds i image label :
  ds_images ds !! i = Some image → ds_labels ds !! i = Some label →
  ds_getitem as_tensor ds (Z.of_nat i)
  = Ok (make_sample as_tensor (ds_transform ds) image label).
Proof.
  intros Hi Hl. unfold ds_getitem.
  by rewrite (proj1 (py_index_nat _ _ _ Hi)), (proj1 (py_index_nat _ _ _ Hl)).
Qed.

(** On a dataset whose two lists have one length n, [ds[idx]] answers for
    -n <= idx < n, with the image and the label at position idx mod n, the
    transform applied to the image when there is one; any other index
    raises [IndexError]. *)
Theorem ds_getitem_in_range ds :
  length (ds_labels ds) = length (ds_images ds) →
  (∀ idx : Z,
     (- Z.of_nat (ds_len ds) ≤ idx < Z.of_nat (ds_len ds))%Z →
     ∃ image label,
       ds_images ds !! Z.to_nat (idx `mod` Z.of_nat (ds_len ds)) = Some image
       ∧ ds_labels ds !! Z.to_nat (idx `mod` Z.of_nat (ds_len ds)) = Some label
       ∧ ds_getitem as_tensor ds idx
         = Ok (make_sample as_tensor (ds_transform ds) image label))
  ∧ (∀ idx : Z,
       (idx < - Z.of_nat (ds_len ds) ∨ Z.of_nat (ds_len ds) ≤ idx)%Z →
       ds_getitem as_tensor ds idx = Raise (IndexError "list index out of range")).
Proof.
  intros Hlen. unfold ds_len. split.
  - intros idx Hidx. set (n := length (ds_images ds)) in *.
    set (i := Z.to_nat (idx `mod` Z.of_nat n)).
    assert (0 ≤ idx `mod` Z.of_nat n < Z.of_nat n)%Z as Hmod
      by (apply Z.mod_pos_bound; lia).
    assert (i < n) as Hi by (subst i; lia).
    destruct (lookup_lt_is_Some_2 (ds_images ds) i Hi) as [image Himg].
    destruct (lookup_lt_is_Some_2 (ds_labels ds) i) as [label Hlab]; [lia|].
    exists image, label. split_and!; [done..|].
    destruct (py_index_nat _ _ _ Himg) as [Hi1 Hi2].
    destruct (py_index_nat _ _ _ Hlab) as [Hl1 Hl2].
    rewrite Hlen in Hl2. fold n in Hi2, Hl2.
    assert (idx = Z.of_nat i ∨ idx = (Z.of_nat i - Z.of_nat n)%Z) as Hcase.
    { subst i. rewrite Z2Nat.id by lia.
      destruct (decide (0 ≤ idx)%Z) as [Hpos|Hneg].
      - left. rewrite Z.mod_small; lia.
      - right. rewrite <- (Z.mod_add idx 1) by lia. rewrite Z.mod_small; lia. }
    clearbody i. unfold ds_getitem.
    destruct Hcase as [-> | ->]; rewrite ?Hi1, ?Hl1, ?Hi2, ?Hl2; reflexivity.
  - intros idx Hout. unfold ds_getitem.
    rewrite (py_index_out_of_range (ds_images ds) idx Hout). reflexivity.
Qed.

(** [BatchSampler]: the batches, glued, are the indices in order. *)
Lemma concat_batch_sampler b sampler batch :
  concat (batch_sampler b sampler batch) = batch ++ sampler.
Proof.
  revert batch. induction sampler as [|i rest IH]; intros batch; cbn.
  - destruct batch; cbn; by rewrite ?app_nil_r.
  - case_bool_decide; cbn; rewrite IH; by rewrite <- app_assoc.
Qed.

Lemma batch_sampler_sizes b sampler batch :
  length batch < b →
  Forall (λ bt, 0 < length bt ≤ b) (batch_sampler b sampler batch).
Proof.
  revert batch. induction sampler as [|i rest IH]; intros batch Hlt; cbn.
  - destruct batch as [|j batch]; [done|].
    apply Forall_cons_2; [cbn in *; lia|apply Forall_nil_2].
  - case_bool_decide as Hfull.
    + constructor; [lia|]. apply IH. cbn. lia.
    + apply IH. rewrite length_app in *. cbn in *. lia.
Qed.

Lemma ceil_div_unique n d q : 0 < d → n ≤ d * q → d * q < n + d → ceil_div n d = q.
Proof.
  intros Hd Hle Hlt. pose proof (ceil_div_spec n d Hd). nia.
Qed.

Lemma length_batch_sampler b sampler batch :
  length batch < b →
  length (batch_sampler b sampler batch) = ceil_div (length batch + length sampler) b.
Proof.
  revert batch. induction sampler as [|i rest IH]; intros batch Hlt; cbn.
  - symmetry. destruct batch as [|j batch]; cbn in *.
    + apply ceil_div_unique; lia.
    + apply ceil_div_unique; lia.
  - case_bool_decide as Hfull.
    + cbn. rewrite IH by (cbn; lia). cbn.
      rewrite length_app in Hfull. cbn in Hfull.
      pose proof (ceil_div_spec (length rest) b).
      symmetry. apply ceil_div_unique; nia.
    + rewrite IH by (rewrite length_app in *; cbn in *; lia).
      rewrite length_app. cbn. f_equal. lia.
Qed.

Lemma Forall2_concat_inv {A B} (R : A → B → Prop) (ls : list (list A)) (k : list B) :
  Forall2 R (concat ls) k →
  ∃ ks, concat ks = k ∧ Forall2 (Forall2 R) ls ks.
Proof.
  revert k. induction ls as [|l ls IH]; intros k Hk; cbn in *.
  - apply Forall2_nil_inv_l in Hk as ->. by exists [].
  - apply Forall2_app_inv_l in Hk as (k1 & k2 & H1 & H2 & ->).
    destruct (IH k2 H2) as (ks & <- & Hks).
    exists (k1 :: ks). split; [done|]. by constructor.
Qed.

Lemma Forall2_all_samples ds :
  length (ds_labels ds) = length (ds_images ds) →
  Forall2 (λ (i : nat) (s : sample Img Tens),
             ds_getitem as_tensor ds (Z.of_nat i) = Ok s)
          (seq 0 (ds_len ds)) (all_samples as_tensor ds).
Proof.
  intros Hlen. unfold ds_len, all_samples.
  apply Forall2_same_length_lookup_2.
  - rewrite length_seq, length_zip_with. lia.
  - intros i j s [-> Hi]%lookup_seq Hs. rewrite lookup_zip_with in Hs.
    destruct (ds_images ds !! i) as [image|] eqn:Himg; [|done].
    destruct (ds_labels ds !! i) as [label|] eqn:Hlab; [|done].
    cbn in Hs. injection Hs as <-. rewrite Nat.add_0_l. by apply ds_getitem_nat.
Qed.

(** The batches of one pass are, batch by batch, the samples at the
    indices the sampler gives. *)
Lemma iterate_loader_batches ds (b : Z) :
  length (ds_labels ds) = length (ds_images ds) →
  (0 < b)%Z →
  ∃ batches,
    iterate_loader as_tensor ds b = Ok batches
    ∧ concat batches = all_samples as_tensor ds
    ∧ Forall2 (λ idxs bt, length idxs = length bt)
        (batch_sampler (Z.to_nat b) (seq 0 (ds_len ds)) []) batches.
Proof.
  intros Hlen Hb. unfold iterate_loader. rewrite bool_decide_eq_false_2 by lia.
  set (idxs := batch_sampler (Z.to_nat b) (seq 0 (ds_len ds)) []).
  pose proof (Forall2_all_samples ds Hlen) as Hall.
  assert (concat idxs = seq 0 (ds_len ds)) as Hcover
    by apply (concat_batch_sampler (Z.to_nat b) (seq 0 (ds_len ds)) []).
  rewrite <- Hcover in Hall.
  apply Forall2_concat_inv in Hall as (batches & Hcat & Hbs).
  exists batches. split_and!; [|done|].
  - apply result_mapM_Forall2.
    eapply Forall2_impl; [exact Hbs|]. intros bi bs Hb2. cbn in Hb2.
    by apply result_mapM_Forall2.
  - eapply Forall2_impl; [exact Hbs|]. intros bi bs Hone. cbn in Hone.
    by apply Forall2_length in Hone.
Qed.

(** One pass over [DataLoader(ds, batch_size=b, shuffle=False)], for a
    dataset with parallel lists and b positive, visits every sample exactly
    once and in dataset order; it yields ceil(n/b) batches, none empty and
    none longer than b. *)
Theorem iterate_loader_covers ds (b : Z) :
  length (ds_labels ds) = length (ds_images ds) →
  (0 < b)%Z →
  ∃ batches,
    iterate_loader as_tensor ds b = Ok batches
    ∧ concat batches = all_samples as_tensor ds
    ∧ Forall (λ bt, 0 < length bt ≤ Z.to_nat b) batches
    ∧ length batches = ceil_div (ds_len ds) (Z.to_nat b).
Proof.
  intros Hlen Hb.
  destruct (iterate_loader_batches ds b Hlen Hb) as (batches & Hit & Hcat & Hbs).
  exists batches. split_and!; [done..| |].
  - assert (Forall (λ bt, 0 < length bt ≤ Z.to_nat b)
              (batch_sampler (Z.to_nat b) (seq 0 (ds_len ds)) [])) as Hsz
      by (apply batch_sampler_sizes; cbn; lia).
    clear Hit Hcat. revert Hsz Hbs.
    generalize (batch_sampler (Z.to_nat b) (seq 0 (ds_len ds)) []).
    intros idxs Hsz Hbs. induction Hbs as [|bi bs ?? Hone _ IH]; [done|].
    apply Forall_cons in Hsz as [H1 H2]. constructor; [lia|by apply IH].
  - rewrite <- (Forall2_length _ _ _ Hbs).
    rewrite length_batch_sampler by (cbn; lia). cbn. by rewrite length_seq.
Qed.
End DatasetFacts.

(** The last of three examples by its negative index, and one index too
    far. *)
Lemma ds_getitem_in_range_witness :
  ds_getitem (λ l : nat, l) (CustomImageDataset [10; 11; 12] [0; 1; 0] None) (-1)
    = Ok (Sample 12 0)
  ∧ ds_getitem (λ l : nat, l) (CustomImageDataset [10; 11; 12] [0; 1; 0] None) 3
    = Raise (IndexError "list index out of range").
Proof.
  destruct (ds_getitem_in_range (λ l : nat, l)
              (CustomImageDataset [10; 11; 12] [0; 1; 0] None) eq_refl) as [Hin Hout].
  split.
  - destruct (Hin (-1)%Z) as (image & label & Hi & Hl & ->); [cbn; lia|].
    vm_compute in Hi, Hl. by simplify_eq.
  - apply Hout. cbn. lia.
Defined.

(** Five examples in batches of two, with no transform. *)
Lemma iterate_loader_covers_witness :
  ∃ batches,
    iterate_loader (λ l : nat, l)
      (CustomImageDataset [10; 11; 12; 13; 14] [0; 1; 0; 1; 1] None) 2 = Ok batches
    ∧ concat batches
      = [Sample 10 0; Sample 11 1; Sample 12 0; Sample 13 1; Sample 14 1]
    ∧ length batches = 3.
Proof.
  destruct (iterate_loader_covers (λ l : nat, l)
              (CustomImageDataset [10; 11; 12; 13; 14] [0; 1; 0; 1; 1] None) 2)
    as (batches & Hb & Hcat & _ & Hlen); [done|lia|].
  exists batches. by split_and!.
Defined.

(** ** The evaluation pass *)

Section EvaluationFacts.
Context {Img Lab Metrics : Type}.
Context (as_tensor : Lab → list float) (model : list Img → list (list float)).
Context (sigmoid : float → float).
Context (compute_metrics :
  list (list float) → list (list Z) → list (list float) → Metrics).

Lemma collect_eq batches y_true y_prob :
  collect model sigmoid batches y_true y_prob
  = (y_true ++ (Label <$> concat batches),
     y_prob ++ concat ((λ batch, (λ row : list float, sigmoid <$> row)
                                   <$> model (Image <$> batch)) <$> batches)).
Proof.
  revert y_true y_prob. induction batches as [|batch rest IH]; intros y_true y_prob.
  - cbn. by rewrite !app_nil_r.
  - cbn [collect]. rewrite IH. cbn. by rewrite fmap_app, <- !app_assoc.
Qed.

Lemma all_samples_labels (ds : custom_image_dataset Img Lab) :
  length (ds_labels ds) = length (ds_images ds) →
  Label <$> all_samples as_tensor ds = as_tensor <$> ds_labels ds
  ∧ Image <$> all_samples as_tensor ds
    = apply_transform (ds_transform ds) <$> ds_images ds.
Proof.
  unfold all_samples. destruct ds as [images labels t]. cbn.
  revert labels. induction images as [|x images IH]; intros [|l labels] Hlen;
    simplify_eq/=; [done|].
  destruct (IH labels) as [-> ->]; [lia|done].
Qed.

Lemma threshold_binary (rows : list (list float)) :
  Forall (Forall (λ z, z = 0 ∨ z = 1)%Z) ((λ row : list float, threshold <$> row) <$> rows).
Proof.
  apply Forall_fmap, Forall_true. intros row. apply Forall_fmap, Forall_true.
  intros p. cbn. unfold threshold. destruct (0.5 <=? p)%float; auto.
Qed.

(** [how_did_i_do] on a dataset with parallel lists: the ground truth it
    returns is the list of label rows of the dataset, in order, whatever
    the batch size and the model; every prediction is 0 or 1, and a
    probability that is NaN is predicted as 0.  When the model treats each
    input of a batch on its own, the predictions too are those of the
    examples one by one, so the batch size does not show in the result. *)
Theorem how_did_i_do_per_example (ds : custom_image_dataset Img Lab) (b : Z) :
  length (ds_labels ds) = length (ds_images ds) →
  (0 < b)%Z →
  (∃ metrics y_pred,
     how_did_i_do as_tensor model sigmoid compute_metrics ds b
       = Ok (metrics, as_tensor <$> ds_labels ds, y_pred)
     ∧ Forall (Forall (λ z, z = 0 ∨ z = 1)%Z) y_pred)
  ∧ threshold nan = 0%Z
  ∧ (∀ net : Img → list float,
       (∀ inputs, model inputs = net <$> inputs) →
       let y_true := as_tensor <$> ds_labels ds in
       let y_prob := (λ image, sigmoid <$> net (apply_transform (ds_transform ds) image))
                       <$> ds_images ds in
       let y_pred := (λ row : list float, threshold <$> row) <$> y_prob in
       how_did_i_do as_tensor model sigmoid compute_metrics ds b
         = Ok (compute_metrics y_true y_pred y_prob, y_true, y_pred)).
Proof.
  intros Hlen Hb.
  destruct (iterate_loader_batches as_tensor ds b Hlen Hb) as (batches & Hit & Hcat & _).
  destruct (all_samples_labels ds Hlen) as [Hlab Himg].
  unfold how_did_i_do. rewrite Hit, result_bind_Ok, collect_eq.
  cbn [app]. rewrite Hcat, Hlab. split_and!.
  - eexists _, _. split; [reflexivity|]. apply threshold_binary.
  - done.
  - intros net Hnet. cbv zeta.
    assert (concat ((λ batch, (λ row : list float, sigmoid <$> row)
                                <$> model (Image <$> batch)) <$> batches)
            = (λ image, sigmoid <$> net (apply_transform (ds_transform ds) image))
                <$> ds_images ds) as ->; [|done].
    assert ((λ image, sigmoid <$> net (apply_transform (ds_transform ds) image))
              <$> ds_images ds
            = (λ x, sigmoid <$> net x)
              <$> (apply_transform (ds_transform ds) <$> ds_images ds)) as ->
      by by rewrite <- list_fmap_compose.
    rewrite <- Himg, <- Hcat. clear -Hnet.
    induction batches as [|batch rest IH]; [done|].
    cbn. rewrite IH, Hnet, !fmap_app. f_equal.
    by rewrite <- !list_fmap_compose.
Qed.
End EvaluationFacts.

(** Three test images scored one by one, read in batches of two. *)
Lemma how_did_i_do_per_example_witness :
  how_did_i_do (λ l : list float, l) (λ inputs, (λ x : float, [x; nan]) <$> inputs)
    (λ x, x) (λ _ _ _, ())
    (CustomImageDataset [0.9; 0.2; 0.5]%float [[1; 0]; [0; 0]; [1; 1]]%float None) 2
  = Ok ((), [[1; 0]; [0; 0]; [1; 1]]%float, [[1; 0]; [0; 0]; [1; 0]]%Z).
Proof.
  destruct (how_did_i_do_per_example (λ l : list float, l)
              (λ inputs, (λ x : float, [x; nan]) <$> inputs) (λ x, x) (λ _ _ _, ())
              (CustomImageDataset [0.9; 0.2; 0.5]%float
                 [[1; 0]; [0; 0]; [1; 1]]%float None) 2)
    as (_ & _ & Hnet); [done|lia|].
  apply (Hnet (λ x : float, [x; nan])). done.
Defined.

(** ** From the split to the samples *)

Section Alignment.
Context {RandomState : Type} (seeded : Z → RandomState).
Context (permutation : RandomState → nat → list nat * RandomState).
Hypothesis permutation_spec : ∀ rng n, (permutation rng n).1 ≡ₚ seq 0 n.
Context {A B Tens : Type} (as_tensor : B → Tens).

(** The datasets built on the three parts of a split have parallel lists,
    and each of their samples is an image of the input with the label row
    it had there: the split and the dataset never pair an image with the
    labels of another one. *)
Theorem split_samples_keep_their_labels global (images : list A) (labels : list B)
    (seed : Z) (t : option (A → A)) :
  length images = length labels →
  3 ≤ length images →
  ∃ s,
    split seeded permutation global images labels seed = (Ok s, global)
    ∧ ∀ X y,
        (X, y) ∈ [(X_train s, y_train s); (X_val s, y_val s); (X_test s, y_test s)] →
        length y = length X
        ∧ ∀ smp, smp ∈ all_samples as_tensor (CustomImageDataset X y t) →
            ∃ image label,
              (image, label) ∈ zip images labels
              ∧ smp = make_sample as_tensor t image label.
Proof.
  intros Hlen HN.
  destruct (split_seeded seeded permutation permutation_spec global images labels
              seed Hlen HN)
    as (s & Hs & Hperm & _ & _ & _ & Htr & Hva & Hte).
  exists s. split; [done|]. intros X y HXy.
  assert (length y = length X ∧ ∀ p, p ∈ zip X y → p ∈ zip images labels) as [HlX Hsub].
  { rewrite !elem_of_cons in HXy.
    destruct HXy as [[= -> ->]|[[= -> ->]|[[= -> ->]|HXy%elem_of_nil]]]; [..|done].
    all: split; [done|]; intros p Hp; rewrite <- Hperm, !elem_of_app; auto. }
  split; [done|]. intros smp [i Hi]%list_elem_of_lookup.
  unfold all_samples in Hi. cbn in Hi. rewrite lookup_zip_with in Hi.
  destruct (X !! i) as [image|] eqn:HX; [|done].
  destruct (y !! i) as [label|] eqn:Hy; [|done].
  cbn in Hi. injection Hi as <-. exists image, label. split; [|done].
  apply Hsub. apply (list_elem_of_lookup_2 _ i).
  by rewrite lookup_zip_with, HX, Hy.
Qed.
End Alignment.

Lemma split_samples_keep_their_labels_witness :
  ∃ s,
    split (λ _, ()) reversing_permutation () (seq 0 10) (seq 100 10) 42 = (Ok s, ())
    ∧ ∀ X y,
        (X, y) ∈ [(X_train s, y_train s); (X_val s, y_val s); (X_test s, y_test s)] →
        length y = length X
        ∧ ∀ smp, smp ∈ all_samples (λ l : nat, l) (CustomImageDataset X y None) →
            ∃ image label,
              (image, label) ∈ zip (seq 0 10) (seq 100 10)
              ∧ smp = make_sample (λ l : nat, l) None image label.
Proof.
  apply (split_samples_keep_their_labels (λ _, ()) reversing_permutation
           (λ rng n, reverse_Permutation (seq 0 n)) (λ l : nat, l)
           () (seq 0 10) (seq 100 10) 42 None); [done|simpl; lia].
Defined.
